(** * Property investment calculator: the projection engine of [app.py]

    A shallow embedding of [calculate_scenario] and of the sensitivity
    loop of [app.py].  Python's floating-point numbers are idealised as
    exact rationals ([Q]); equalities between amounts are stated up to
    [Qeq] ([==]).  Integers (years, terms) are [Z].

    The sidebar widgets of the script bind module-level globals that
    [calculate_scenario] reads; they are gathered in the record
    [ScenarioParameters], passed explicitly. *)

From Stdlib Require Import ZArith QArith Qpower Qabs Qreduction List Bool Lia Lqa.
Import ListNotations.
Open Scope Q_scope.

(** ** Data model *)

(** The sidebar inputs (lines 13-30).  [land_tax] is [0] when the
    check box is not ticked. *)
Record ScenarioParameters := {
  purchase_price : Q;
  loan_amount : Q;
  interest_rate : Q;
  loan_term : Z;
  interest_only_period : Z;
  weekly_rent : Q;
  vacancy_rate : Q;
  annual_opex : Q;
  land_tax : Q;
  marginal_tax_rate : Q;
  capital_growth : Q;
  cpi_rate : Q;
  holding_period : Z
}.

(** One row of [data]; the fields are the columns of the data frame
    (line 137), in order. *)
Record YearRecord := {
  Year : Z;
  Value : Q;
  Loan : Q;
  Rent : Q;
  Opex : Q;
  NOI : Q;
  Interest : Q;
  Principal : Q;
  Tax : Q;
  Pre_Tax_CF : Q;
  Post_Tax_CF : Q
}.

(** The dictionary returned by [calculate_scenario].  An IRR is [None]
    when the solver reports no solution (NaN in the script). *)
Record ScenarioResult := {
  IRR_Post_Tax : option Q;
  IRR_Pre_Tax : option Q;
  Cash_on_Cash : Q;
  Net_Profit : Q;
  Data : list YearRecord
}.

(** The variables the loop of [calculate_scenario] updates. *)
Record LoopState := {
  current_loan : Q;
  current_value : Q;
  current_rent : Q;
  current_opex : Q;
  cash_flows_pre_tax : list Q;
  cash_flows_post_tax : list Q;
  total_principal_paid : Q;
  data : list YearRecord
}.

(** ** Helpers of the host language *)

(** [x < y] on rationals, as a boolean. *)
Definition Qltb (x y : Q) : bool := negb (Qle_bool y x).

(** Python's [sum]: starts from [0], adds from the left. *)
Definition sumQ (l : list Q) : Q := fold_left Qplus l 0.

(** Python's [range(n)]. *)
Definition range (n : Z) : list Z := map Z.of_nat (seq 0 (Z.to_nat n)).

(** Python's [l[-1]]; [None] stands for the [IndexError] on an empty list. *)
Definition last_item {A : Type} (l : list A) : option A :=
  match rev l with
  | [] => None
  | x :: _ => Some x
  end.

(** The option monad, for the calls that may raise. *)
Definition bind {A B : Type} (m : option A) (f : A -> option B) : option B :=
  match m with
  | Some a => f a
  | None => None
  end.

Notation "x <- m ;; k" := (bind m (fun x => k))
  (at level 61, m at next level, right associativity).

Fixpoint mapM {A B : Type} (f : A -> option B) (l : list A) : option (list B) :=
  match l with
  | [] => Some []
  | a :: l' => b <- f a ;; bs <- mapM f l' ;; Some (b :: bs)
  end.

(** ** The library functions [npf.pmt] and [npf.irr] *)

(** Modelled from the spec: [npf.pmt] belongs to the numpy_financial
    library, which is not part of the sources.  It is the standard
    fixed-payment annuity formula, here with the library's defaults of a
    future value [fv] of [0] and payments at the end of each period
    ([when] is [0]), and with its zero-rate case, where the factor is
    the number of periods.  The result is the negated payment, as the
    call site [-npf.pmt(...)] shows. *)
Definition pmt (rate : Q) (nper : Z) (pv : Q) : Q :=
  let fv := 0 in
  let when := 0 in
  let temp := (1 + rate) ^ nper in
  let fact := if Qeq_bool rate 0 then inject_Z nper
              else (1 + rate * when) * (temp - 1) / rate in
  - (fv + pv * temp) / fact.

(** Net present value of a stream at rate [r], period 0 undiscounted. *)
Fixpoint npv (r : Q) (cashflows : list Q) : Q :=
  match cashflows with
  | [] => 0
  | c :: rest => c + npv r rest / (1 + r)
  end.

Definition irr_lo : Q := - 0.99.
Definition irr_hi : Q := 10.
Definition irr_tol : Q := 1 # 1000000.
Definition irr_max_iter : nat := 200.

(** Bisection on a bracket [lo, hi] whose ends have values of opposite
    sign; [flo] is the value at [lo].  [None] when the iteration budget
    is spent. *)
Fixpoint bisect (fuel : nat) (cashflows : list Q) (lo hi flo : Q) : option Q :=
  match fuel with
  | O => None
  | S fuel' =>
      let mid := Qred ((lo + hi) / 2) in
      let fmid := Qred (npv mid cashflows) in
      if Qle_bool (Qabs fmid) irr_tol then Some mid
      else if Qltb (flo * fmid) 0 then bisect fuel' cashflows lo mid flo
      else bisect fuel' cashflows mid hi fmid
  end.

(** Modelled from the spec: [npf.irr] belongs to the numpy_financial
    library, which is not part of the sources.  The spec describes a
    numerical root-find of the net present value over the real rate
    domain that reports no solution when it finds no sign change or
    exceeds its iteration budget; here a bisection over the bracket
    [irr_lo, irr_hi].  It stands in for the solver only as the source
    of the two IRR fields: it misses a root outside the bracket or a
    pair of roots inside it, and it has no failing outcome besides
    [None].  No theorem below depends on the rate it reports. *)
Definition irr (cashflows : list Q) : option Q :=
  let flo := npv irr_lo cashflows in
  let fhi := npv irr_hi cashflows in
  if Qltb (flo * fhi) 0
  then bisect irr_max_iter cashflows irr_lo irr_hi flo
  else None.

(** ** [calculate_scenario] *)

Section Engine.

(** The globals read by the function, and its four arguments. *)
Variable g : ScenarioParameters.
Variables p_price l_amount i_rate cap_growth : Q.

(** Initial costs (lines 41-44). *)
Definition stamp_duty : Q := p_price * 0.04.
Definition closing_costs : Q := 2000.
Definition total_upfront_cost : Q := p_price + stamp_duty + closing_costs.
Definition initial_equity : Q := total_upfront_cost - l_amount.

(** The state before the loop (lines 47-57). *)
Definition init_state : LoopState :=
  {| current_loan := l_amount;
     current_value := p_price;
     current_rent := weekly_rent g * 52 * (1 - vacancy_rate g);
     current_opex := annual_opex g + land_tax g;
     cash_flows_pre_tax := [- initial_equity];
     cash_flows_post_tax := [- initial_equity];
     total_principal_paid := 0;
     data := [] |}.

(** The payment of an amortizing year (line 79). *)
Definition payment (remaining_term : Z) (loan : Q) : Q :=
  - pmt i_rate remaining_term loan.

(** Loan calculations of a year (lines 72-84): the interest payment and
    the principal payment. *)
Definition loan_calcs (loan : Q) (year : Z) : Q * Q :=
  if (year <=? interest_only_period g)%Z then
    (loan * i_rate, 0)
  else
    let remaining_term := (loan_term g - (year - 1))%Z in
    if (remaining_term >? 0)%Z then
      let interest_payment := loan * i_rate in
      (interest_payment, payment remaining_term loan - interest_payment)
    else
      (0, 0).

(** The row appended to [data] in the iteration for [year]
    (line 61 for year 0, lines 64-104 otherwise). *)
Definition year_row (st : LoopState) (year : Z) : YearRecord :=
  if (year =? 0)%Z then
    {| Year := year; Value := p_price; Loan := l_amount;
       Rent := 0; Opex := 0; NOI := 0; Interest := 0; Principal := 0;
       Tax := 0; Pre_Tax_CF := 0; Post_Tax_CF := - initial_equity |}
  else
    let rent := current_rent st * (if (year >? 1)%Z then 1 + cpi_rate g else 1) in
    let opex := current_opex st * (if (year >? 1)%Z then 1 + cpi_rate g else 1) in
    let noi := rent - opex in
    let interest_payment := fst (loan_calcs (current_loan st) year) in
    let principal_payment := snd (loan_calcs (current_loan st) year) in
    let loan := current_loan st - principal_payment in
    let loan := if Qltb loan 0 then 0 else loan in
    let depreciation := if (year <=? 10)%Z then 6000 else 0 in
    let taxable_income := noi - interest_payment - depreciation in
    let tax_payable := taxable_income * marginal_tax_rate g in
    let pre_tax_cf := noi - interest_payment - principal_payment in
    let post_tax_cf := pre_tax_cf - tax_payable in
    let value := current_value st * (1 + cap_growth) in
    {| Year := year; Value := value; Loan := loan;
       Rent := rent; Opex := opex; NOI := noi;
       Interest := interest_payment; Principal := principal_payment;
       Tax := tax_payable; Pre_Tax_CF := pre_tax_cf;
       Post_Tax_CF := post_tax_cf |}.

(** One iteration of the loop (lines 59-109).  The running balances
    are the ones stored in the row; year 0 only appends its row. *)
Definition step (st : LoopState) (year : Z) : LoopState :=
  let row := year_row st year in
  if (year =? 0)%Z then
    {| current_loan := current_loan st;
       current_value := current_value st;
       current_rent := current_rent st;
       current_opex := current_opex st;
       cash_flows_pre_tax := cash_flows_pre_tax st;
       cash_flows_post_tax := cash_flows_post_tax st;
       total_principal_paid := total_principal_paid st;
       data := data st ++ [row] |}
  else
    {| current_loan := Loan row;
       current_value := Value row;
       current_rent := Rent row;
       current_opex := Opex row;
       cash_flows_pre_tax :=
         if (year <? holding_period g)%Z
         then cash_flows_pre_tax st ++ [Pre_Tax_CF row]
         else cash_flows_pre_tax st;
       cash_flows_post_tax :=
         if (year <? holding_period g)%Z
         then cash_flows_post_tax st ++ [Post_Tax_CF row]
         else cash_flows_post_tax st;
       total_principal_paid := total_principal_paid st + Principal row;
       data := data st ++ [row] |}.

(** The state after the first [n] iterations, years [0 .. n-1]. *)
Definition run (n : nat) : LoopState :=
  fold_left step (map Z.of_nat (seq 0 n)) init_state.

(** The state after the whole loop over [range(holding_period + 1)]. *)
Definition loop : LoopState :=
  fold_left step (range (holding_period g + 1)) init_state.

(** The values computed after the loop (lines 111-135), kept together
    with the finished cash-flow streams. *)
Record Locals := {
  final_state : LoopState;
  cgt_payable : Q;
  net_proceeds_post_tax : Q;
  net_proceeds_pre_tax : Q;
  stream_post_tax : list Q;
  stream_pre_tax : list Q;
  total_cash_in : Q;
  total_cash_out : Q;
  coc_total_outlay : Q
}.

Definition locals : option Locals :=
  let st := loop in
  last <- last_item (data st) ;;
  let sale_price := Value last in
  let selling_costs := sale_price * 0.025 in
  let loan_balance := Loan last in
  let cost_base := p_price + stamp_duty + closing_costs in
  let gross_gain := sale_price - selling_costs - cost_base in
  let taxable_gain :=
    if (holding_period g >? 1)%Z then gross_gain * 0.5 else gross_gain in
  let cgt := taxable_gain * marginal_tax_rate g in
  let net_post := sale_price - selling_costs - loan_balance - cgt in
  let net_pre := sale_price - selling_costs - loan_balance in
  let cf_post := cash_flows_post_tax st ++ [Post_Tax_CF last + net_post] in
  let cf_pre := cash_flows_pre_tax st ++ [Pre_Tax_CF last + net_pre] in
  let cash_in := sumQ (map Post_Tax_CF (tl (data st))) + net_post in
  let cash_out := initial_equity + total_principal_paid st in
  Some {| final_state := st;
          cgt_payable := cgt;
          net_proceeds_post_tax := net_post;
          net_proceeds_pre_tax := net_pre;
          stream_post_tax := cf_post;
          stream_pre_tax := cf_pre;
          total_cash_in := cash_in;
          total_cash_out := cash_out;
          coc_total_outlay :=
            if Qltb 0 cash_out then cash_in / cash_out else 0 |}.

Definition calculate_scenario : option ScenarioResult :=
  v <- locals ;;
  Some {| IRR_Post_Tax := irr (stream_post_tax v);
          IRR_Pre_Tax := irr (stream_pre_tax v);
          Cash_on_Cash := coc_total_outlay v;
          Net_Profit := sumQ (stream_post_tax v);
          Data := data (final_state v) |}.

End Engine.

(** The call of line 148: the scenario of the current inputs. *)
Definition project (g : ScenarioParameters) : option ScenarioResult :=
  calculate_scenario g (purchase_price g) (loan_amount g)
                     (interest_rate g) (capital_growth g).

Definition project_locals (g : ScenarioParameters) : option Locals :=
  locals g (purchase_price g) (loan_amount g)
         (interest_rate g) (capital_growth g).

(** ** The sensitivity matrix (lines 176-187) *)

Definition growth_ranges : list Q := [0.03; 0.04; 0.05; 0.06; 0.07].
Definition interest_ranges : list Q := [0.04; 0.05; 0.06; 0.07; 0.08].

(** The nested loop, over arbitrary axes: one row per interest rate, one
    cell per growth rate, each the post-tax IRR of a fresh scenario. *)
Definition sweep (g : ScenarioParameters) (interest_axis growth_axis : list Q)
  : option (list (list (option Q))) :=
  mapM (fun ir =>
          mapM (fun cg =>
                  res <- calculate_scenario g (purchase_price g) (loan_amount g) ir cg ;;
                  Some (IRR_Post_Tax res))
               growth_axis)
       interest_axis.

Definition matrix_data (g : ScenarioParameters) : option (list (list (option Q))) :=
  sweep g interest_ranges growth_ranges.

(** [base] with the interest rate and the capital growth rate replaced. *)
Definition with_rates (g : ScenarioParameters) (ir cg : Q) : ScenarioParameters :=
  {| purchase_price := purchase_price g;
     loan_amount := loan_amount g;
     interest_rate := ir;
     loan_term := loan_term g;
     interest_only_period := interest_only_period g;
     weekly_rent := weekly_rent g;
     vacancy_rate := vacancy_rate g;
     annual_opex := annual_opex g;
     land_tax := land_tax g;
     marginal_tax_rate := marginal_tax_rate g;
     capital_growth := cg;
     cpi_rate := cpi_rate g;
     holding_period := holding_period g |}.

(** The years whose flows have entered the streams after [n] iterations
    of the loop: the years from 1 on, below both [n] and the holding
    period. *)
Definition interior_years (g : ScenarioParameters) (n : nat) : list nat :=
  seq 1 (Nat.min (n - 1) (Z.to_nat (holding_period g) - 1)).

(** ** The parameter domain *)

(** The invariant of the input record: every rate is a fraction in
    [0,1], the interest-only period does not exceed the loan term, and
    the holding period is at least one year. *)
Definition in_domain (g : ScenarioParameters) : Prop :=
  (0 <= interest_rate g <= 1) /\
  (0 <= vacancy_rate g <= 1) /\
  (0 <= marginal_tax_rate g <= 1) /\
  (0 <= capital_growth g <= 1) /\
  (0 <= cpi_rate g <= 1) /\
  (interest_only_period g <= loan_term g)%Z /\
  (1 <= holding_period g)%Z.

(** The default values of the sidebar widgets. *)
Definition default_inputs : ScenarioParameters :=
  {| purchase_price := 750000;
     loan_amount := 600000;
     interest_rate := 0.06;
     loan_term := 30;
     interest_only_period := 0;
     weekly_rent := 600;
     vacancy_rate := 0.03;
     annual_opex := 6000;
     land_tax := 0;
     marginal_tax_rate := 0.37;
     capital_growth := 0.05;
     cpi_rate := 0.025;
     holding_period := 10 |}.

(** A purchase of 100000 financed by a loan of 200000. *)
Definition over_leveraged_inputs : ScenarioParameters :=
  {| purchase_price := 100000;
     loan_amount := 200000;
     interest_rate := 0.06;
     loan_term := 30;
     interest_only_period := 0;
     weekly_rent := 600;
     vacancy_rate := 0.03;
     annual_opex := 6000;
     land_tax := 0;
     marginal_tax_rate := 0.37;
     capital_growth := 0.05;
     cpi_rate := 0.025;
     holding_period := 10 |}.

(** The default inputs with a loan principal of -100000. *)
Definition negative_loan_inputs : ScenarioParameters :=
  {| purchase_price := 750000;
     loan_amount := - 100000;
     interest_rate := 0.06;
     loan_term := 30;
     interest_only_period := 0;
     weekly_rent := 600;
     vacancy_rate := 0.03;
     annual_opex := 6000;
     land_tax := 0;
     marginal_tax_rate := 0.37;
     capital_growth := 0.05;
     cpi_rate := 0.025;
     holding_period := 10 |}.

(** An interest-only period equal to the loan term, with a loan
    principal of -100000 and a holding period of one year. *)
Definition negative_interest_only_inputs : ScenarioParameters :=
  {| purchase_price := 750000;
     loan_amount := - 100000;
     interest_rate := 0.06;
     loan_term := 10;
     interest_only_period := 10;
     weekly_rent := 600;
     vacancy_rate := 0.03;
     annual_opex := 6000;
     land_tax := 0;
     marginal_tax_rate := 0.37;
     capital_growth := 0.05;
     cpi_rate := 0.025;
     holding_period := 1 |}.

(** The default inputs, with ten interest-only years on a ten-year loan. *)
Definition interest_only_inputs : ScenarioParameters :=
  {| purchase_price := 750000;
     loan_amount := 600000;
     interest_rate := 0.06;
     loan_term := 10;
     interest_only_period := 10;
     weekly_rent := 600;
     vacancy_rate := 0.03;
     annual_opex := 6000;
     land_tax := 0;
     marginal_tax_rate := 0.37;
     capital_growth := 0.05;
     cpi_rate := 0.025;
     holding_period := 10 |}.

(** The default inputs at an interest rate of 0, held for three years. *)
Definition zero_rate_inputs : ScenarioParameters :=
  {| purchase_price := 750000;
     loan_amount := 600000;
     interest_rate := 0;
     loan_term := 30;
     interest_only_period := 0;
     weekly_rent := 600;
     vacancy_rate := 0.03;
     annual_opex := 6000;
     land_tax := 0;
     marginal_tax_rate := 0.37;
     capital_growth := 0.05;
     cpi_rate := 0.025;
     holding_period := 3 |}.

(** A purchase without a loan whose single year of losses is exactly
    offset by the sale proceeds. *)
Definition break_even_inputs : ScenarioParameters :=
  {| purchase_price := 1000;
     loan_amount := 0;
     interest_rate := 0.06;
     loan_term := 10;
     interest_only_period := 0;
     weekly_rent := 0;
     vacancy_rate := 0;
     annual_opex := 975;
     land_tax := 0;
     marginal_tax_rate := 0;
     capital_growth := 0;
     cpi_rate := 0;
     holding_period := 1 |}.

(** A purchase of 100000 with a loan of 110000, sold after one year:
    both entries of each stream are positive. *)
Definition cash_back_inputs : ScenarioParameters :=
  {| purchase_price := 100000;
     loan_amount := 110000;
     interest_rate := 0.06;
     loan_term := 30;
     interest_only_period := 0;
     weekly_rent := 600;
     vacancy_rate := 0.03;
     annual_opex := 6000;
     land_tax := 0;
     marginal_tax_rate := 0.37;
     capital_growth := 0.05;
     cpi_rate := 0.025;
     holding_period := 1 |}.


(** A ten-year loan with two interest-only years, held for twelve years. *)
Definition short_loan_inputs : ScenarioParameters :=
  {| purchase_price := 750000;
     loan_amount := 600000;
     interest_rate := 0.06;
     loan_term := 10;
     interest_only_period := 2;
     weekly_rent := 600;
     vacancy_rate := 0.03;
     annual_opex := 6000;
     land_tax := 0;
     marginal_tax_rate := 0.37;
     capital_growth := 0.05;
     cpi_rate := 0.025;
     holding_period := 12 |}.

(** The default inputs with a holding period of 0 years. *)
Definition zero_hold_inputs : ScenarioParameters :=
  {| purchase_price := 750000;
     loan_amount := 600000;
     interest_rate := 0.06;
     loan_term := 30;
     interest_only_period := 0;
     weekly_rent := 600;
     vacancy_rate := 0.03;
     annual_opex := 6000;
     land_tax := 0;
     marginal_tax_rate := 0.37;
     capital_growth := 0.05;
     cpi_rate := 0.025;
     holding_period := 0 |}.

(** The default inputs with a holding period of -1. *)
Definition negative_hold_inputs : ScenarioParameters :=
  {| purchase_price := 750000;
     loan_amount := 600000;
     interest_rate := 0.06;
     loan_term := 30;
     interest_only_period := 0;
     weekly_rent := 600;
     vacancy_rate := 0.03;
     annual_opex := 6000;
     land_tax := 0;
     marginal_tax_rate := 0.37;
     capital_growth := 0.05;
     cpi_rate := 0.025;
     holding_period := -1 |}.

(** ** The equity column of the chart (lines 167-168) *)

(** [chart_data['Equity'] = chart_data['Value'] - chart_data['Loan']]:
    the column-wise difference, one entry per row of the ledger. *)
Definition equity_column (df : list YearRecord) : list Q :=
  map (fun r => Value r - Loan r) df.

(** ** The weekly cash-flow metric (line 157) *)

(** [results['Data'].iloc[1]['Post-Tax CF'] / 52]; [None] stands for the
    [IndexError] of [iloc[1]] on a ledger of a single row. *)
Definition weekly_cash_flow (res : ScenarioResult) : option Q :=
  row1 <- nth_error (Data res) 1 ;;
  Some (Post_Tax_CF row1 / 52).

(** ** Basic facts about the helpers *)

Lemma Qltb_true (x y : Q) : Qltb x y = true <-> x < y.
Proof.
  unfold Qltb. rewrite negb_true_iff, <- not_true_iff_false, Qle_bool_iff.
  split; [apply Qnot_le_lt | apply Qlt_not_le].
Qed.

Lemma Qltb_false (x y : Q) : Qltb x y = false <-> y <= x.
Proof.
  unfold Qltb. rewrite negb_false_iff. apply Qle_bool_iff.
Qed.

Lemma last_item_app {A : Type} (l : list A) (x : A) : last_item (l ++ [x]) = Some x.
Proof.
  unfold last_item. rewrite rev_app_distr. reflexivity.
Qed.

Lemma sumQ_from (l : list Q) (a : Q) : fold_left Qplus l a == a + sumQ l.
Proof.
  unfold sumQ. revert a. induction l as [|x l IH]; intros a; simpl.
  - lra.
  - rewrite (IH (a + x)), (IH (0 + x)). lra.
Qed.

Lemma sumQ_app (l : list Q) (x : Q) : sumQ (l ++ [x]) == sumQ l + x.
Proof.
  unfold sumQ. rewrite fold_left_app. reflexivity.
Qed.

Lemma sumQ_cons (x : Q) (l : list Q) : sumQ (x :: l) == x + sumQ l.
Proof.
  unfold sumQ at 1. simpl. rewrite sumQ_from. lra.
Qed.

(** ** The loop, one iteration at a time *)

Section Loop.

Variable g : ScenarioParameters.
Variables p_price l_amount i_rate cap_growth : Q.

Local Abbreviation runN := (run g p_price l_amount i_rate cap_growth).
Local Abbreviation stepY := (step g p_price l_amount i_rate cap_growth).
Local Abbreviation rowY := (year_row g p_price l_amount i_rate cap_growth).
Local Abbreviation loopH := (loop g p_price l_amount i_rate cap_growth).
Local Abbreviation equity := (initial_equity p_price l_amount).

Lemma run_S (n : nat) : runN (S n) = stepY (runN n) (Z.of_nat n).
Proof.
  unfold run. rewrite seq_S, map_app, fold_left_app. reflexivity.
Qed.

Lemma loop_run : loopH = runN (Z.to_nat (holding_period g + 1)).
Proof. reflexivity. Qed.

Lemma data_step (st : LoopState) (year : Z) :
  data (stepY st year) = data st ++ [rowY st year].
Proof.
  unfold step. destruct (year =? 0)%Z; reflexivity.
Qed.

Lemma data_run_length (n : nat) : length (data (runN n)) = n.
Proof.
  induction n as [|n IH]; [reflexivity|].
  rewrite run_S, data_step, length_app, IH. simpl. lia.
Qed.

(** Row [k] of the ledger is the row built in iteration [k]. *)
Lemma data_run_nth (n k : nat) :
  (k < n)%nat -> nth_error (data (runN n)) k = Some (rowY (runN k) (Z.of_nat k)).
Proof.
  induction n as [|n IH]; intros Hk; [lia|].
  rewrite run_S, data_step.
  destruct (Nat.eq_dec k n) as [->|Hne].
  - rewrite nth_error_app2; rewrite data_run_length; [|lia].
    rewrite Nat.sub_diag. reflexivity.
  - rewrite nth_error_app1; [apply IH; lia | rewrite data_run_length; lia].
Qed.

Lemma data_run_last (n : nat) :
  last_item (data (runN (S n))) = Some (rowY (runN n) (Z.of_nat n)).
Proof.
  rewrite run_S, data_step. apply last_item_app.
Qed.

(** Year 0 leaves the running balances as they were set up. *)
Lemma run_1 :
  runN 1 = {| current_loan := l_amount;
             current_value := p_price;
             current_rent := weekly_rent g * 52 * (1 - vacancy_rate g);
             current_opex := annual_opex g + land_tax g;
             cash_flows_pre_tax := [- equity];
             cash_flows_post_tax := [- equity];
             total_principal_paid := 0;
             data := [rowY (runN 0) 0] |}.
Proof. reflexivity. Qed.

(** After a year [n >= 1] the running balances are those of its row. *)
Lemma run_S_loan (n : nat) :
  (1 <= n)%nat -> current_loan (runN (S n)) = Loan (rowY (runN n) (Z.of_nat n)).
Proof.
  intros Hn. rewrite run_S. unfold step.
  destruct (Z.eqb_spec (Z.of_nat n) 0); [lia | reflexivity].
Qed.

Lemma run_S_rent (n : nat) :
  (1 <= n)%nat -> current_rent (runN (S n)) = Rent (rowY (runN n) (Z.of_nat n)).
Proof.
  intros Hn. rewrite run_S. unfold step.
  destruct (Z.eqb_spec (Z.of_nat n) 0); [lia | reflexivity].
Qed.

Lemma run_S_opex (n : nat) :
  (1 <= n)%nat -> current_opex (runN (S n)) = Opex (rowY (runN n) (Z.of_nat n)).
Proof.
  intros Hn. rewrite run_S. unfold step.
  destruct (Z.eqb_spec (Z.of_nat n) 0); [lia | reflexivity].
Qed.

Lemma run_S_total_principal (n : nat) :
  (1 <= n)%nat ->
  total_principal_paid (runN (S n)) =
  total_principal_paid (runN n) + Principal (rowY (runN n) (Z.of_nat n)).
Proof.
  intros Hn. rewrite run_S. unfold step.
  destruct (Z.eqb_spec (Z.of_nat n) 0); [lia | reflexivity].
Qed.

(** The fields of the row of a year [year >= 1]. *)
Lemma year_row_pos (st : LoopState) (year : Z) :
  (year <> 0)%Z ->
  rowY st year =
  let f := if (year >? 1)%Z then 1 + cpi_rate g else 1 in
  let ip := fst (loan_calcs g i_rate (current_loan st) year) in
  let pp := snd (loan_calcs g i_rate (current_loan st) year) in
  let noi := current_rent st * f - current_opex st * f in
  let tax := (noi - ip - (if (year <=? 10)%Z then 6000 else 0))
             * marginal_tax_rate g in
  {| Year := year;
     Value := current_value st * (1 + cap_growth);
     Loan := if Qltb (current_loan st - pp) 0 then 0 else current_loan st - pp;
     Rent := current_rent st * f;
     Opex := current_opex st * f;
     NOI := noi;
     Interest := ip;
     Principal := pp;
     Tax := tax;
     Pre_Tax_CF := noi - ip - pp;
     Post_Tax_CF := noi - ip - pp - tax |}.
Proof.
  intros Hy. unfold year_row.
  destruct (Z.eqb_spec year 0); [contradiction | reflexivity].
Qed.

(** The scenario returns a result as soon as the loop has run once. *)
Lemma data_loop_last :
  (0 <= holding_period g)%Z ->
  last_item (data loopH) =
  Some (rowY (runN (Z.to_nat (holding_period g))) (holding_period g)).
Proof.
  intros Hh. rewrite loop_run.
  replace (Z.to_nat (holding_period g + 1)) with (S (Z.to_nat (holding_period g))) by lia.
  rewrite data_run_last. rewrite Z2Nat.id by lia. reflexivity.
Qed.

End Loop.

(** ** The cash-flow streams *)

Section Streams.

Variable g : ScenarioParameters.
Variables p_price l_amount i_rate cap_growth : Q.

Local Abbreviation runN := (run g p_price l_amount i_rate cap_growth).
Local Abbreviation rowY := (year_row g p_price l_amount i_rate cap_growth).
Local Abbreviation equity := (initial_equity p_price l_amount).

Lemma interior_years_step (n : nat) :
  (1 <= n)%nat -> (Z.of_nat n < holding_period g)%Z ->
  interior_years g (S n) = interior_years g n ++ [n].
Proof.
  intros Hn Hlt. unfold interior_years.
  replace (Nat.min (S n - 1) (Z.to_nat (holding_period g) - 1)) with
    (S (Nat.min (n - 1) (Z.to_nat (holding_period g) - 1))) by lia.
  rewrite seq_S. repeat f_equal. lia.
Qed.

Lemma interior_years_stay (n : nat) :
  (n = 0%nat \/ holding_period g <= Z.of_nat n)%Z ->
  interior_years g (S n) = interior_years g n.
Proof.
  intros Hn. unfold interior_years. f_equal. lia.
Qed.

Lemma cash_flows_run (n : nat) :
  cash_flows_pre_tax (runN n) =
    - equity :: map (fun k => Pre_Tax_CF (rowY (runN k) (Z.of_nat k))) (interior_years g n)
  /\
  cash_flows_post_tax (runN n) =
    - equity :: map (fun k => Post_Tax_CF (rowY (runN k) (Z.of_nat k))) (interior_years g n).
Proof.
  induction n as [|n [IHpre IHpost]]; [split; reflexivity|].
  rewrite run_S. unfold step.
  destruct (Z.eqb_spec (Z.of_nat n) 0) as [H0|H0]; cbn [cash_flows_pre_tax cash_flows_post_tax].
  - rewrite interior_years_stay by lia. split; assumption.
  - destruct (Z.ltb_spec (Z.of_nat n) (holding_period g)) as [Hlt|Hge].
    + rewrite interior_years_step by lia.
      rewrite !map_app, IHpre, IHpost. split; reflexivity.
    + rewrite interior_years_stay by lia. split; assumption.
Qed.

(** The accumulated principal is the sum of the principal column. *)
Lemma total_principal_run (n : nat) :
  total_principal_paid (runN n) == sumQ (map Principal (tl (data (runN n)))).
Proof.
  induction n as [|n IH]; [reflexivity|].
  destruct n as [|n]; [reflexivity|].
  rewrite run_S_total_principal by lia.
  rewrite (run_S _ _ _ _ _ (S n)), data_step.
  assert (Hne : data (runN (S n)) <> []).
  { intros E. apply (f_equal (@length _)) in E. rewrite data_run_length in E. discriminate. }
  destruct (data (runN (S n))) as [|r0 rest] eqn:E; [contradiction|].
  cbn [tl app] in *. rewrite map_app. cbn [map]. rewrite sumQ_app, IH. reflexivity.
Qed.

End Streams.

(** ** The values computed after the loop *)

Section Terminal.

Variable g : ScenarioParameters.
Variables p_price l_amount i_rate cap_growth : Q.

Local Abbreviation runN := (run g p_price l_amount i_rate cap_growth).
Local Abbreviation rowY := (year_row g p_price l_amount i_rate cap_growth).
Local Abbreviation equity := (initial_equity p_price l_amount).
Local Abbreviation hp := (Z.to_nat (holding_period g)).

(** With a holding period that is not negative, [data] is not empty
    after the loop and the function reaches its [return]. *)
Lemma locals_some :
  (0 <= holding_period g)%Z ->
  exists v : Locals,
    locals g p_price l_amount i_rate cap_growth = Some v /\
    final_state v = runN (S hp) /\
    let last := rowY (runN hp) (holding_period g) in
    net_proceeds_pre_tax v = Value last - Value last * 0.025 - Loan last /\
    net_proceeds_post_tax v =
      Value last - Value last * 0.025 - Loan last - cgt_payable v /\
    stream_pre_tax v =
      cash_flows_pre_tax (runN (S hp)) ++ [Pre_Tax_CF last + net_proceeds_pre_tax v] /\
    stream_post_tax v =
      cash_flows_post_tax (runN (S hp)) ++ [Post_Tax_CF last + net_proceeds_post_tax v] /\
    total_cash_in v =
      sumQ (map Post_Tax_CF (tl (data (runN (S hp))))) + net_proceeds_post_tax v /\
    total_cash_out v = equity + total_principal_paid (runN (S hp)) /\
    coc_total_outlay v =
      if Qltb 0 (total_cash_out v) then total_cash_in v / total_cash_out v else 0.
Proof.
  intros Hh. unfold locals.
  rewrite data_loop_last by assumption. cbn [bind].
  rewrite loop_run.
  replace (Z.to_nat (holding_period g + 1)) with (S hp) by lia.
  eexists. split; [reflexivity|].
  cbn. repeat split; reflexivity.
Qed.

Lemma calculate_scenario_some (v : Locals) :
  locals g p_price l_amount i_rate cap_growth = Some v ->
  calculate_scenario g p_price l_amount i_rate cap_growth =
  Some {| IRR_Post_Tax := irr (stream_post_tax v);
          IRR_Pre_Tax := irr (stream_pre_tax v);
          Cash_on_Cash := coc_total_outlay v;
          Net_Profit := sumQ (stream_post_tax v);
          Data := data (final_state v) |}.
Proof.
  intros E. unfold calculate_scenario. rewrite E. reflexivity.
Qed.

End Terminal.

(** ** The shape of the result *)

Lemma nth_error_stream_interior {A : Type} (x y : A) (f : nat -> A) (m k : nat) :
  (1 <= k <= m)%nat ->
  nth_error (x :: map f (seq 1 m) ++ [y]) k = Some (f k).
Proof.
  intros Hk. destruct k as [|k]; [lia|]. cbn [nth_error].
  rewrite nth_error_app1 by (rewrite length_map, length_seq; lia).
  rewrite nth_error_map, nth_error_seq.
  destruct (Nat.ltb_spec k m); [reflexivity | lia].
Qed.

Lemma nth_error_stream_last {A : Type} (x y : A) (f : nat -> A) (m k : nat) :
  k = S m ->
  nth_error (x :: map f (seq 1 m) ++ [y]) k = Some y.
Proof.
  intros ->. cbn [nth_error].
  rewrite nth_error_app2; rewrite length_map, length_seq; [|lia].
  rewrite Nat.sub_diag. reflexivity.
Qed.

Section Shape.

Variable g : ScenarioParameters.
Variables p_price l_amount i_rate cap_growth : Q.

Local Abbreviation runN := (run g p_price l_amount i_rate cap_growth).
Local Abbreviation rowY := (year_row g p_price l_amount i_rate cap_growth).
Local Abbreviation equity := (initial_equity p_price l_amount).
Local Abbreviation hp := (Z.to_nat (holding_period g)).

(** The finished streams: the initial outlay, the flows of the years
    strictly before the holding period, and the terminal entry. *)
Lemma streams_shape (v : Locals) :
  (1 <= holding_period g)%Z ->
  locals g p_price l_amount i_rate cap_growth = Some v ->
  let last := rowY (runN hp) (holding_period g) in
  stream_pre_tax v =
    - equity :: map (fun k => Pre_Tax_CF (rowY (runN k) (Z.of_nat k))) (seq 1 (hp - 1))
                ++ [Pre_Tax_CF last + net_proceeds_pre_tax v]
  /\
  stream_post_tax v =
    - equity :: map (fun k => Post_Tax_CF (rowY (runN k) (Z.of_nat k))) (seq 1 (hp - 1))
                ++ [Post_Tax_CF last + net_proceeds_post_tax v].
Proof.
  intros Hh E.
  destruct (locals_some g p_price l_amount i_rate cap_growth) as (v' & E' & _ & F);
    [lia|].
  rewrite E in E'. injection E' as <-.
  destruct F as (_ & _ & Fpre & Fpost & _).
  destruct (cash_flows_run g p_price l_amount i_rate cap_growth (S hp)) as [Cpre Cpost].
  rewrite Fpre, Fpost, Cpre, Cpost. unfold interior_years.
  replace (Nat.min (S hp - 1) (hp - 1)) with (hp - 1)%nat by lia.
  split; reflexivity.
Qed.

(** The returned dictionary, field by field. *)
Lemma scenario_some :
  (0 <= holding_period g)%Z ->
  exists (v : Locals) (res : ScenarioResult),
    locals g p_price l_amount i_rate cap_growth = Some v /\
    calculate_scenario g p_price l_amount i_rate cap_growth = Some res /\
    final_state v = runN (S hp) /\
    Data res = data (runN (S hp)) /\
    Cash_on_Cash res = coc_total_outlay v /\
    Net_Profit res = sumQ (stream_post_tax v) /\
    IRR_Post_Tax res = irr (stream_post_tax v) /\
    IRR_Pre_Tax res = irr (stream_pre_tax v).
Proof.
  intros Hh.
  destruct (locals_some g p_price l_amount i_rate cap_growth Hh) as (v & E & Fs & _).
  exists v. eexists. split; [exact E|].
  split; [apply calculate_scenario_some; exact E|].
  cbn. rewrite Fs. repeat split; reflexivity.
Qed.

(** In a row of a year [k >= 1] the two cash flows differ by the tax. *)
Lemma row_cf_difference (st : LoopState) (year : Z) :
  (year <> 0)%Z ->
  Pre_Tax_CF (rowY st year) - Post_Tax_CF (rowY st year) == Tax (rowY st year).
Proof.
  intros Hy. rewrite year_row_pos by assumption. cbn. ring.
Qed.

End Shape.

(** ** Concrete inputs *)

Lemma default_inputs_in_domain : in_domain default_inputs.
Proof.
  unfold in_domain; cbn. repeat split; try lra; lia.
Qed.

(** The end-to-end example of the default inputs: the year-1 record
    shows an interest payment of 600000 * 6% = 36000. *)
Example default_year1_interest :
  exists (res : ScenarioResult) (row1 : YearRecord),
    project default_inputs = Some res /\
    nth_error (Data res) 1 = Some row1 /\
    Interest row1 == 36000.
Proof.
  destruct (scenario_some default_inputs 750000 600000 0.06 0.05)
    as (_ & res & _ & E & _ & D & _); [cbn; lia|].
  exists res. eexists. split; [exact E|]. rewrite D.
  split; [apply data_run_nth; cbn; lia|]. vm_compute. reflexivity.
Qed.

(** ** C1: the year-0 record *)

(** The first row of the ledger is the one built for year 0. *)
Lemma project_year0 (g : ScenarioParameters) :
  (0 <= holding_period g)%Z ->
  exists res : ScenarioResult,
    project g = Some res /\
    nth_error (Data res) 0 =
    Some {| Year := 0; Value := purchase_price g; Loan := loan_amount g;
            Rent := 0; Opex := 0; NOI := 0; Interest := 0; Principal := 0;
            Tax := 0; Pre_Tax_CF := 0;
            Post_Tax_CF := - initial_equity (purchase_price g) (loan_amount g) |}.
Proof.
  intros Hh.
  destruct (scenario_some g (purchase_price g) (loan_amount g)
              (interest_rate g) (capital_growth g) Hh)
    as (v & res & _ & E & _ & D & _).
  exists res. split; [exact E|].
  rewrite D, data_run_nth by lia. reflexivity.
Qed.

(** C1 (as amended).  For every in-domain parameter set, the year-0
    record returned by [project] has value equal to the purchase price,
    loan equal to the loan principal, and rent, opex, NOI, interest,
    principal, tax and pre-tax cash flow equal to 0; its post-tax
    cash-flow field holds the negative initial equity, which is also
    index 0 of both cash-flow streams. *)
Theorem year0_record (g : ScenarioParameters) :
  in_domain g ->
  exists (res : ScenarioResult) (v : Locals) (r0 : YearRecord),
    project g = Some res /\
    project_locals g = Some v /\
    nth_error (Data res) 0 = Some r0 /\
    Year r0 = 0%Z /\
    Value r0 == purchase_price g /\
    Loan r0 == loan_amount g /\
    Rent r0 == 0 /\ Opex r0 == 0 /\ NOI r0 == 0 /\
    Interest r0 == 0 /\ Principal r0 == 0 /\ Tax r0 == 0 /\
    Pre_Tax_CF r0 == 0 /\
    Post_Tax_CF r0 == - initial_equity (purchase_price g) (loan_amount g) /\
    nth_error (stream_pre_tax v) 0 =
      Some (- initial_equity (purchase_price g) (loan_amount g)) /\
    nth_error (stream_post_tax v) 0 =
      Some (- initial_equity (purchase_price g) (loan_amount g)).
Proof.
  intros (_ & _ & _ & _ & _ & _ & Hh).
  destruct (project_year0 g) as (res & E & R0); [lia|].
  destruct (locals_some g (purchase_price g) (loan_amount g)
              (interest_rate g) (capital_growth g)) as (v & Ev & _); [lia|].
  destruct (streams_shape g _ _ _ _ v Hh Ev) as [Spre Spost].
  exists res, v. eexists.
  split; [exact E|]. split; [exact Ev|]. split; [exact R0|].
  cbn [Year Value Loan Rent Opex NOI Interest Principal Tax Pre_Tax_CF Post_Tax_CF].
  rewrite Spre, Spost.
  repeat split; reflexivity.
Qed.

Lemma year0_record_witness :
  exists (res : ScenarioResult) (v : Locals) (r0 : YearRecord),
    project default_inputs = Some res /\
    project_locals default_inputs = Some v /\
    nth_error (Data res) 0 = Some r0 /\
    Year r0 = 0%Z /\
    Value r0 == purchase_price default_inputs /\
    Loan r0 == loan_amount default_inputs /\
    Rent r0 == 0 /\ Opex r0 == 0 /\ NOI r0 == 0 /\
    Interest r0 == 0 /\ Principal r0 == 0 /\ Tax r0 == 0 /\
    Pre_Tax_CF r0 == 0 /\
    Post_Tax_CF r0 == - initial_equity (purchase_price default_inputs)
                                       (loan_amount default_inputs) /\
    nth_error (stream_pre_tax v) 0 =
      Some (- initial_equity (purchase_price default_inputs)
                             (loan_amount default_inputs)) /\
    nth_error (stream_post_tax v) 0 =
      Some (- initial_equity (purchase_price default_inputs)
                             (loan_amount default_inputs)).
Proof.
  apply (year0_record default_inputs).
  unfold in_domain; cbn. repeat split; try lra; lia.
Defined.

(** With the default inputs the initial equity is 182000, and the
    post-tax cash-flow field of the year-0 record is -182000, not 0. *)
Lemma year0_post_tax_cf_not_zero :
  in_domain default_inputs /\
  exists (res : ScenarioResult) (r0 : YearRecord),
    project default_inputs = Some res /\
    nth_error (Data res) 0 = Some r0 /\
    Post_Tax_CF r0 == - 182000 /\
    ~ Post_Tax_CF r0 == 0.
Proof.
  split; [exact default_inputs_in_domain|].
  destruct (project_year0 default_inputs) as (res & E & R0); [cbn; lia|].
  exists res. eexists. split; [exact E|]. split; [exact R0|].
  cbn [Post_Tax_CF]. split; vm_compute; [reflexivity | discriminate].
Qed.

(** ** C2: the two cash-flow streams *)

(** C2 (as amended).  For every in-domain parameter set, the pre-tax and
    post-tax streams both have length holding period + 1; their index-0
    entries are both the negative initial equity, which is strictly
    negative whenever the initial equity is positive (the total upfront
    cost exceeds the loan principal); for every interior year
    1 <= k < holding period the pre-tax entry minus the post-tax entry is
    that year's tax payable; and the final entries differ by the final
    year's tax payable plus the capital-gains tax. *)
Theorem cash_flow_streams (g : ScenarioParameters) :
  in_domain g ->
  exists v : Locals,
    project_locals g = Some v /\
    length (stream_pre_tax v) = S (Z.to_nat (holding_period g)) /\
    length (stream_post_tax v) = S (Z.to_nat (holding_period g)) /\
    nth_error (stream_pre_tax v) 0 =
      Some (- initial_equity (purchase_price g) (loan_amount g)) /\
    nth_error (stream_post_tax v) 0 =
      Some (- initial_equity (purchase_price g) (loan_amount g)) /\
    (0 < initial_equity (purchase_price g) (loan_amount g) ->
     - initial_equity (purchase_price g) (loan_amount g) < 0) /\
    (forall k : nat,
        (1 <= k < Z.to_nat (holding_period g))%nat ->
        exists (row : YearRecord) (pre post : Q),
          nth_error (data (final_state v)) k = Some row /\
          nth_error (stream_pre_tax v) k = Some pre /\
          nth_error (stream_post_tax v) k = Some post /\
          pre - post == Tax row) /\
    (exists (row : YearRecord) (pre post : Q),
        nth_error (data (final_state v)) (Z.to_nat (holding_period g)) = Some row /\
        nth_error (stream_pre_tax v) (Z.to_nat (holding_period g)) = Some pre /\
        nth_error (stream_post_tax v) (Z.to_nat (holding_period g)) = Some post /\
        pre - post == Tax row + cgt_payable v).
Proof.
  intros (_ & _ & _ & _ & _ & _ & Hh).
  set (hp := Z.to_nat (holding_period g)).
  destruct (locals_some g (purchase_price g) (loan_amount g)
              (interest_rate g) (capital_growth g)) as (v & Ev & Fs & F); [lia|].
  destruct F as (Npre & Npost & _).
  destruct (streams_shape g _ _ _ _ v Hh Ev) as [Spre Spost].
  fold hp in Fs, Spre, Spost, Npre, Npost.
  exists v. split; [exact Ev|].
  rewrite Spre, Spost, Fs.
  split; [|split].
  1,2: cbn [length]; rewrite length_app, length_map, length_seq; cbn [length]; lia.
  split; [reflexivity|]. split; [reflexivity|].
  split; [intros Hpos; lra|].
  split.
  - intros k Hk.
    eexists. eexists. eexists.
    split; [apply data_run_nth; lia|].
    split; [apply nth_error_stream_interior; lia|].
    split; [apply (nth_error_stream_interior _ _
                     (fun k => Post_Tax_CF (year_row g _ _ _ _ (run g _ _ _ _ k) (Z.of_nat k))));
            lia|].
    apply row_cf_difference. lia.
  - eexists. eexists. eexists.
    split; [apply data_run_nth; lia|].
    split; [apply nth_error_stream_last; lia|].
    split; [apply nth_error_stream_last; lia|].
    replace (Z.of_nat hp) with (holding_period g) by lia.
    rewrite Npre, Npost.
    pose proof (row_cf_difference g (purchase_price g) (loan_amount g)
                  (interest_rate g) (capital_growth g)
                  (run g (purchase_price g) (loan_amount g)
                       (interest_rate g) (capital_growth g) hp)
                  (holding_period g) ltac:(lia)) as Hd.
    lra.
Qed.

Lemma cash_flow_streams_witness :
  exists v : Locals,
    project_locals default_inputs = Some v /\
    length (stream_pre_tax v) = 11%nat /\
    length (stream_post_tax v) = 11%nat /\
    nth_error (stream_pre_tax v) 0 =
      Some (- initial_equity 750000 600000) /\
    nth_error (stream_post_tax v) 0 =
      Some (- initial_equity 750000 600000) /\
    - initial_equity 750000 600000 < 0 /\
    (forall k : nat,
        (1 <= k < 10)%nat ->
        exists (row : YearRecord) (pre post : Q),
          nth_error (data (final_state v)) k = Some row /\
          nth_error (stream_pre_tax v) k = Some pre /\
          nth_error (stream_post_tax v) k = Some post /\
          pre - post == Tax row) /\
    (exists (row : YearRecord) (pre post : Q),
        nth_error (data (final_state v)) 10 = Some row /\
        nth_error (stream_pre_tax v) 10 = Some pre /\
        nth_error (stream_post_tax v) 10 = Some post /\
        pre - post == Tax row + cgt_payable v).
Proof.
  destruct (cash_flow_streams default_inputs)
    as (v & E & Lpre & Lpost & Hpre & Hpost & Hneg & Hk & Hlast).
  - unfold in_domain; cbn. repeat split; try lra; lia.
  - exists v. repeat (split; [assumption|]).
    split; [apply Hneg; vm_compute; reflexivity|].
    split; assumption.
Defined.

(** With a loan above the upfront cost, the total upfront cost is
    positive (106000) and yet the first entry of the streams is +94000. *)
Lemma first_entry_not_negative :
  in_domain over_leveraged_inputs /\
  0 < total_upfront_cost (purchase_price over_leveraged_inputs) /\
  exists (v : Locals) (pre post : Q),
    project_locals over_leveraged_inputs = Some v /\
    nth_error (stream_pre_tax v) 0 = Some pre /\
    nth_error (stream_post_tax v) 0 = Some post /\
    pre == 94000 /\ post == 94000 /\ ~ pre < 0 /\ ~ post < 0.
Proof.
  split; [unfold in_domain; cbn; repeat split; try lra; lia|].
  split; [vm_compute; reflexivity|].
  destruct (locals_some over_leveraged_inputs 100000 200000 0.06 0.05)
    as (v & Ev & _); [cbn; lia|].
  destruct (streams_shape over_leveraged_inputs 100000 200000 0.06 0.05 v)
    as [Spre Spost]; [cbn; lia | exact Ev |].
  exists v. eexists. eexists.
  split; [exact Ev|].
  rewrite Spre, Spost.
  split; [reflexivity|]. split; [reflexivity|].
  repeat split; vm_compute; congruence.
Qed.

(** ** C3: rent, operating expenses and NOI *)

Section Inflation.

Variable g : ScenarioParameters.
Variables p_price l_amount i_rate cap_growth : Q.

Local Abbreviation runN := (run g p_price l_amount i_rate cap_growth).
Local Abbreviation rowY := (year_row g p_price l_amount i_rate cap_growth).

Lemma Qpower_succ_nat (q : Q) (k : nat) :
  (1 <= k)%nat -> q ^ (Z.of_nat (S k) - 1) == q ^ (Z.of_nat k - 1) * q.
Proof.
  intros Hk.
  replace (Z.of_nat (S k) - 1)%Z with ((Z.of_nat k - 1) + 1)%Z by lia.
  rewrite Qpower_plus' by lia. rewrite Qpower_1_r. reflexivity.
Qed.

Lemma rent_opex_row (k : nat) :
  (1 <= k)%nat ->
  Rent (rowY (runN k) (Z.of_nat k)) ==
    weekly_rent g * 52 * (1 - vacancy_rate g) * (1 + cpi_rate g) ^ (Z.of_nat k - 1)
  /\
  Opex (rowY (runN k) (Z.of_nat k)) ==
    (annual_opex g + land_tax g) * (1 + cpi_rate g) ^ (Z.of_nat k - 1).
Proof.
  induction k as [|k IH]; [lia|]. intros _.
  rewrite year_row_pos by lia. cbn [Rent Opex].
  destruct (Nat.eq_dec k 0) as [->|Hk].
  - cbn. split; ring.
  - destruct IH as [IHr IHo]; [lia|].
    rewrite run_S_rent, run_S_opex by lia.
    destruct (Z.gtb_spec (Z.of_nat (S k)) 1) as [_|Hle]; [|lia].
    rewrite IHr, IHo, Qpower_succ_nat by lia. split; ring.
Qed.

Lemma noi_row (st : LoopState) (year : Z) :
  (year <> 0)%Z ->
  NOI (rowY st year) = Rent (rowY st year) - Opex (rowY st year).
Proof.
  intros Hy. rewrite year_row_pos by assumption. reflexivity.
Qed.

End Inflation.

(** C3.  For every in-domain parameter set and every year k >= 1 of the
    projection, the recorded rent is weekly rent * 52 * (1 - vacancy
    rate) * (1 + CPI rate)^(k-1), the recorded opex is (annual operating
    expenses + land tax) * (1 + CPI rate)^(k-1), and NOI is their
    difference; year 1 carries the base annualized figures, with no
    inflation applied. *)
Theorem rent_opex_inflation (g : ScenarioParameters) :
  in_domain g ->
  exists res : ScenarioResult,
    project g = Some res /\
    (forall k : nat,
        (1 <= k <= Z.to_nat (holding_period g))%nat ->
        exists row : YearRecord,
          nth_error (Data res) k = Some row /\
          Rent row == weekly_rent g * 52 * (1 - vacancy_rate g)
                      * (1 + cpi_rate g) ^ (Z.of_nat k - 1) /\
          Opex row == (annual_opex g + land_tax g)
                      * (1 + cpi_rate g) ^ (Z.of_nat k - 1) /\
          NOI row == Rent row - Opex row) /\
    (exists row1 : YearRecord,
        nth_error (Data res) 1 = Some row1 /\
        Rent row1 == weekly_rent g * 52 * (1 - vacancy_rate g) /\
        Opex row1 == annual_opex g + land_tax g).
Proof.
  intros (_ & _ & _ & _ & _ & _ & Hh).
  destruct (scenario_some g (purchase_price g) (loan_amount g)
              (interest_rate g) (capital_growth g))
    as (v & res & _ & E & _ & D & _); [lia|].
  exists res. split; [exact E|]. rewrite D. split.
  - intros k Hk. eexists.
    split; [apply data_run_nth; lia|].
    destruct (rent_opex_row g (purchase_price g) (loan_amount g)
                (interest_rate g) (capital_growth g) k) as [Hr Ho]; [lia|].
    split; [exact Hr|]. split; [exact Ho|].
    rewrite noi_row by lia. reflexivity.
  - eexists. split; [apply data_run_nth; lia|].
    destruct (rent_opex_row g (purchase_price g) (loan_amount g)
                (interest_rate g) (capital_growth g) 1) as [Hr Ho]; [lia|].
    rewrite Hr, Ho. cbn. split; ring.
Qed.

Lemma rent_opex_inflation_witness :
  exists (res : ScenarioResult) (row2 : YearRecord),
    project default_inputs = Some res /\
    nth_error (Data res) 2 = Some row2 /\
    Rent row2 == 600 * 52 * (1 - 0.03) * (1 + 0.025) ^ 1 /\
    Opex row2 == (6000 + 0) * (1 + 0.025) ^ 1 /\
    NOI row2 == Rent row2 - Opex row2.
Proof.
  destruct (rent_opex_inflation default_inputs) as (res & E & Hyear & _).
  - unfold in_domain; cbn. repeat split; try lra; lia.
  - destruct (Hyear 2%nat) as (row2 & H); [cbn; lia|].
    exists res, row2. split; [exact E | exact H].
Defined.

(** ** Loan servicing *)

Section Annuity.

Variable rate : Q.
Variable nper : Z.
Hypothesis nper_pos : (0 < nper)%Z.

Lemma inject_Z_nper_pos : 0 < inject_Z nper.
Proof.
  change 0 with (inject_Z 0). rewrite <- Zlt_Qlt. exact nper_pos.
Qed.

Lemma inject_Z_nper_ge_1 : 1 <= inject_Z nper.
Proof.
  change 1 with (inject_Z 1). rewrite <- Zle_Qle. lia.
Qed.

(** At a zero rate the payment is the balance over the remaining term. *)
Lemma payment_zero_rate (pv : Q) :
  rate == 0 -> payment rate nper pv == pv / inject_Z nper.
Proof.
  intros Hr. unfold payment, pmt. cbv zeta.
  assert (Hb : Qeq_bool rate 0 = true) by (apply Qeq_bool_iff; exact Hr).
  rewrite Hb.
  assert (Ht : (1 + rate) ^ nper == 1).
  { rewrite Hr. setoid_replace (1 + 0) with 1 by ring. apply Qpower_1. }
  rewrite Ht.
  pose proof inject_Z_nper_pos as Hn.
  field. intros E. rewrite E in Hn. apply (Qlt_irrefl 0). exact Hn.
Qed.

(** The growth factor of the annuity exceeds [1] by at least the rate. *)
Lemma growth_factor_bound : 0 <= rate -> rate <= (1 + rate) ^ nper - 1.
Proof.
  intros Hr.
  assert (H1 : (1 + rate) ^ 1 <= (1 + rate) ^ nper).
  { apply Qpower_le_compat_l; [lia | lra]. }
  rewrite Qpower_1_r in H1. lra.
Qed.

(** At a positive rate the principal part of the payment is
    [pv * rate / ((1 + rate)^nper - 1)]. *)
Lemma principal_positive_rate (pv : Q) :
  0 < rate ->
  payment rate nper pv - pv * rate == pv * rate / ((1 + rate) ^ nper - 1).
Proof.
  intros Hr. unfold payment, pmt. cbv zeta.
  assert (Hb : Qeq_bool rate 0 = false).
  { apply not_true_iff_false. rewrite Qeq_bool_iff. intros E. rewrite E in Hr.
    apply (Qlt_irrefl 0). exact Hr. }
  rewrite Hb.
  pose proof (growth_factor_bound (Qlt_le_weak _ _ Hr)) as Ht.
  set (t := (1 + rate) ^ nper) in *.
  field. split; intros E; rewrite E in *; lra.
Qed.

(** The principal part of a payment lies between [0] and the balance. *)
Lemma principal_part_bounds (pv : Q) :
  0 <= rate -> 0 <= pv ->
  0 <= payment rate nper pv - pv * rate <= pv.
Proof.
  intros Hr Hpv.
  destruct (Qlt_le_dec 0 rate) as [Hpos|Hle].
  - rewrite principal_positive_rate by assumption.
    pose proof (growth_factor_bound Hr) as Ht.
    set (t := (1 + rate) ^ nper) in *.
    assert (Hd : 0 < t - 1) by lra.
    split.
    + apply Qle_shift_div_l; [exact Hd|]. rewrite Qmult_0_l.
      apply Qmult_le_0_compat; lra.
    + apply Qle_shift_div_r; [exact Hd|].
      rewrite (Qmult_comm pv (t - 1)), (Qmult_comm pv rate).
      apply Qmult_le_compat_r; lra.
  - assert (H0 : rate == 0) by lra.
    rewrite payment_zero_rate by assumption. rewrite H0.
    pose proof inject_Z_nper_pos as Hn. pose proof inject_Z_nper_ge_1 as Hn1.
    setoid_replace (pv / inject_Z nper - pv * 0) with (pv / inject_Z nper) by ring.
    split.
    + apply Qle_shift_div_l; [exact Hn|]. lra.
    + apply Qle_shift_div_r; [exact Hn|].
      setoid_replace pv with (pv * 1) at 1 by ring.
      rewrite (Qmult_comm pv 1), (Qmult_comm pv (inject_Z nper)).
      apply Qmult_le_compat_r; lra.
Qed.

End Annuity.

Section Loan.

Variable g : ScenarioParameters.
Variables p_price l_amount i_rate cap_growth : Q.

Local Abbreviation runN := (run g p_price l_amount i_rate cap_growth).
Local Abbreviation rowY := (year_row g p_price l_amount i_rate cap_growth).

(** The balance a year [k >= 1] starts from is the one recorded the
    year before. *)
Lemma loan_prev (k : nat) :
  current_loan (runN (S k)) = Loan (rowY (runN k) (Z.of_nat k)).
Proof.
  destruct k as [|k]; [reflexivity|]. apply run_S_loan. lia.
Qed.

Lemma interest_principal_row (st : LoopState) (year : Z) :
  (year <> 0)%Z ->
  Interest (rowY st year) = fst (loan_calcs g i_rate (current_loan st) year) /\
  Principal (rowY st year) = snd (loan_calcs g i_rate (current_loan st) year) /\
  Loan (rowY st year) =
    if Qltb (current_loan st - Principal (rowY st year)) 0 then 0
    else current_loan st - Principal (rowY st year).
Proof.
  intros Hy. rewrite year_row_pos by assumption. cbn. repeat split; reflexivity.
Qed.

(** The principal payment of any year lies between [0] and the balance,
    for a rate and a balance that are not negative. *)
Lemma principal_payment_bounds (loan : Q) (year : Z) :
  0 <= i_rate -> 0 <= loan ->
  0 <= snd (loan_calcs g i_rate loan year) <= loan.
Proof.
  intros Hr Hl. unfold loan_calcs.
  destruct (year <=? interest_only_period g)%Z; cbn [snd]; [lra|].
  destruct (Z.gtb_spec (loan_term g - (year - 1)) 0) as [Hpos|Hneg]; cbn [snd]; [|lra].
  apply principal_part_bounds; [lia | assumption | assumption].
Qed.

(** Without a negative balance to start from, the clamp of the balance
    at [0] never takes effect. *)
Lemma loan_row_no_clamp (st : LoopState) (year : Z) :
  (year <> 0)%Z -> 0 <= i_rate -> 0 <= current_loan st ->
  Loan (rowY st year) = current_loan st - Principal (rowY st year) /\
  0 <= Principal (rowY st year) <= current_loan st.
Proof.
  intros Hy Hr Hl.
  destruct (interest_principal_row st year Hy) as (_ & Hp & Hloan).
  pose proof (principal_payment_bounds (current_loan st) year Hr Hl) as Hb.
  rewrite <- Hp in Hb. split; [|exact Hb].
  rewrite Hloan.
  assert (Hf : Qltb (current_loan st - Principal (rowY st year)) 0 = false).
  { apply Qltb_false. lra. }
  rewrite Hf. reflexivity.
Qed.

(** The balance stays non-negative, and together with the principal
    paid so far it adds up to the amount borrowed. *)
Lemma loan_invariant (n : nat) :
  0 <= i_rate -> 0 <= l_amount ->
  0 <= current_loan (runN n) /\
  current_loan (runN n) + total_principal_paid (runN n) == l_amount.
Proof.
  intros Hr Hl. induction n as [|n [IH0 IHs]].
  - cbn. split; lra.
  - destruct n as [|n]; [cbn; split; lra|].
    rewrite run_S_loan, run_S_total_principal by lia.
    destruct (loan_row_no_clamp (runN (S n)) (Z.of_nat (S n))) as (E & Hb);
      [lia | assumption | assumption |].
    rewrite E. split; lra.
Qed.

Lemma loan_row_nonneg (k : nat) :
  0 <= i_rate -> 0 <= l_amount -> 0 <= Loan (rowY (runN k) (Z.of_nat k)).
Proof.
  intros Hr Hl. rewrite <- loan_prev. apply loan_invariant; assumption.
Qed.

Lemma loan_row_decreasing (k : nat) :
  0 <= i_rate -> 0 <= l_amount ->
  Loan (rowY (runN (S k)) (Z.of_nat (S k))) <= Loan (rowY (runN k) (Z.of_nat k)).
Proof.
  intros Hr Hl.
  destruct (loan_row_no_clamp (runN (S k)) (Z.of_nat (S k))) as (E & Hb);
    [lia | assumption | apply loan_invariant; assumption |].
  rewrite E, <- loan_prev. lra.
Qed.

(** A fully interest-only loan: no principal is ever paid. *)
Lemma principal_interest_only (loan : Q) (year : Z) :
  interest_only_period g = loan_term g -> (1 <= year)%Z ->
  snd (loan_calcs g i_rate loan year) = 0.
Proof.
  intros Hio Hy. unfold loan_calcs.
  destruct (Z.leb_spec year (interest_only_period g)) as [Hle|Hgt]; [reflexivity|].
  destruct (Z.gtb_spec (loan_term g - (year - 1)) 0) as [Hpos|Hneg];
    [lia | reflexivity].
Qed.

(** The ledger after [k] iterations is a prefix of any later ledger. *)
Lemma data_run_firstn (n k : nat) :
  (k <= n)%nat -> data (runN k) = firstn k (data (runN n)).
Proof.
  induction n as [|n IH]; intros Hk.
  - replace k with 0%nat by lia. reflexivity.
  - destruct (Nat.eq_dec k (S n)) as [->|Hne].
    + rewrite firstn_all2; [reflexivity | rewrite data_run_length; lia].
    + rewrite run_S, data_step, firstn_app, data_run_length.
      replace (k - n)%nat with 0%nat by lia.
      rewrite <- IH by lia. cbn [firstn]. rewrite app_nil_r. reflexivity.
Qed.

End Loan.

Lemma tl_firstn {A : Type} (k : nat) (l : list A) :
  tl (firstn (S k) l) = firstn k (tl l).
Proof.
  destruct l as [|x l]; [destruct k|]; reflexivity.
Qed.

(** The rows of the ledger returned by [project]. *)
Lemma project_rows (g : ScenarioParameters) :
  (0 <= holding_period g)%Z ->
  exists res : ScenarioResult,
    project g = Some res /\
    Data res = data (run g (purchase_price g) (loan_amount g) (interest_rate g)
                         (capital_growth g) (S (Z.to_nat (holding_period g)))) /\
    length (Data res) = S (Z.to_nat (holding_period g)) /\
    forall k : nat,
      (k <= Z.to_nat (holding_period g))%nat ->
      nth_error (Data res) k =
      Some (year_row g (purchase_price g) (loan_amount g) (interest_rate g)
                     (capital_growth g)
                     (run g (purchase_price g) (loan_amount g) (interest_rate g)
                          (capital_growth g) k)
                     (Z.of_nat k)).
Proof.
  intros Hh.
  destruct (scenario_some g (purchase_price g) (loan_amount g)
              (interest_rate g) (capital_growth g) Hh)
    as (v & res & _ & E & _ & D & _).
  exists res. split; [exact E|]. split; [exact D|]. rewrite D.
  split; [apply data_run_length|].
  intros k Hk. apply data_run_nth. lia.
Qed.

(** ** C4: the loan balance never rises and is never negative *)

(** C4 (as amended).  For every in-domain parameter set whose loan
    principal is not negative, the loan balance recorded by [project] is
    non-increasing from each year to the next and is never negative in
    any year record. *)
Theorem loan_balance_monotone (g : ScenarioParameters) :
  in_domain g ->
  0 <= loan_amount g ->
  exists res : ScenarioResult,
    project g = Some res /\
    (forall (k : nat) (row : YearRecord),
        nth_error (Data res) k = Some row -> 0 <= Loan row) /\
    (forall (k : nat) (row next : YearRecord),
        nth_error (Data res) k = Some row ->
        nth_error (Data res) (S k) = Some next ->
        Loan next <= Loan row).
Proof.
  intros ((Hr & _) & _ & _ & _ & _ & _ & Hh) Hl.
  destruct (project_rows g) as (res & E & _ & Hlen & Hrow); [lia|].
  exists res. split; [exact E|]. split.
  - intros k row Hk.
    assert (Hlt : (k < length (Data res))%nat) by (apply nth_error_Some; congruence).
    rewrite Hrow in Hk by lia. injection Hk as <-.
    apply loan_row_nonneg; assumption.
  - intros k row next Hk Hk'.
    assert (Hlt : (S k < length (Data res))%nat) by (apply nth_error_Some; congruence).
    rewrite Hrow in Hk, Hk' by lia. injection Hk as <-. injection Hk' as <-.
    apply loan_row_decreasing; assumption.
Qed.

Lemma loan_balance_monotone_witness :
  exists res : ScenarioResult,
    project default_inputs = Some res /\
    (forall (k : nat) (row : YearRecord),
        nth_error (Data res) k = Some row -> 0 <= Loan row) /\
    (forall (k : nat) (row next : YearRecord),
        nth_error (Data res) k = Some row ->
        nth_error (Data res) (S k) = Some next ->
        Loan next <= Loan row).
Proof.
  apply (loan_balance_monotone default_inputs).
  - unfold in_domain; cbn. repeat split; try lra; lia.
  - cbn. lra.
Defined.

(** With a loan principal of -100000 the year-0 balance is negative, and
    the clamp at [0] makes the balance rise to [0] in year 1. *)
Lemma loan_balance_rises :
  in_domain negative_loan_inputs /\
  exists (res : ScenarioResult) (r0 r1 : YearRecord),
    project negative_loan_inputs = Some res /\
    nth_error (Data res) 0 = Some r0 /\
    nth_error (Data res) 1 = Some r1 /\
    Loan r0 == - 100000 /\ Loan r1 == 0 /\
    ~ 0 <= Loan r0 /\ ~ Loan r1 <= Loan r0.
Proof.
  split; [unfold in_domain; cbn; repeat split; try lra; lia|].
  destruct (project_rows negative_loan_inputs) as (res & E & _ & _ & Hrow); [cbn; lia|].
  exists res. eexists. eexists.
  split; [exact E|].
  split; [apply Hrow; cbn; lia|]. split; [apply Hrow; cbn; lia|].
  repeat split; vm_compute; congruence.
Qed.

(** ** C8: a fully interest-only loan *)

Lemma loan_interest_only (g : ScenarioParameters) (k : nat) :
  interest_only_period g = loan_term g ->
  0 <= loan_amount g ->
  Loan (year_row g (purchase_price g) (loan_amount g) (interest_rate g)
                 (capital_growth g)
                 (run g (purchase_price g) (loan_amount g) (interest_rate g)
                      (capital_growth g) k)
                 (Z.of_nat k)) == loan_amount g.
Proof.
  intros Hio Hl. induction k as [|k IH]; [reflexivity|].
  destruct (interest_principal_row g (purchase_price g) (loan_amount g)
              (interest_rate g) (capital_growth g)
              (run g (purchase_price g) (loan_amount g) (interest_rate g)
                   (capital_growth g) (S k))
              (Z.of_nat (S k))) as (_ & Hp & Hloan); [lia|].
  rewrite principal_interest_only in Hp by (assumption || lia).
  rewrite Hloan, Hp, loan_prev.
  set (prev := Loan _) in *.
  assert (Hf : Qltb (prev - 0) 0 = false) by (apply Qltb_false; lra).
  rewrite Hf. lra.
Qed.

(** C8 (as amended).  For every in-domain parameter set whose
    interest-only period equals the loan term, [project] records a
    principal payment of 0 for every year 1..holding period; and when
    the loan principal is not negative, the loan balance in the final
    year record equals the loan principal. *)
Theorem fully_interest_only (g : ScenarioParameters) :
  in_domain g ->
  interest_only_period g = loan_term g ->
  exists res : ScenarioResult,
    project g = Some res /\
    (forall k : nat,
        (1 <= k <= Z.to_nat (holding_period g))%nat ->
        exists row : YearRecord,
          nth_error (Data res) k = Some row /\ Principal row == 0) /\
    (0 <= loan_amount g ->
     exists final : YearRecord,
       last_item (Data res) = Some final /\ Loan final == loan_amount g).
Proof.
  intros (_ & _ & _ & _ & _ & _ & Hh) Hio.
  destruct (project_rows g) as (res & E & D & _ & Hrow); [lia|].
  exists res. split; [exact E|]. split.
  - intros k Hk. eexists. split; [apply Hrow; lia|].
    destruct (interest_principal_row g (purchase_price g) (loan_amount g)
                (interest_rate g) (capital_growth g)
                (run g (purchase_price g) (loan_amount g) (interest_rate g)
                     (capital_growth g) k)
                (Z.of_nat k)) as (_ & Hp & _); [lia|].
    rewrite Hp, principal_interest_only by (assumption || lia). reflexivity.
  - intros Hl. eexists. rewrite D.
    split; [apply data_run_last|].
    apply loan_interest_only; assumption.
Qed.

Lemma fully_interest_only_witness :
  exists res : ScenarioResult,
    project interest_only_inputs = Some res /\
    (forall k : nat,
        (1 <= k <= 10)%nat ->
        exists row : YearRecord,
          nth_error (Data res) k = Some row /\ Principal row == 0) /\
    (exists final : YearRecord,
       last_item (Data res) = Some final /\ Loan final == 600000).
Proof.
  destruct (fully_interest_only interest_only_inputs) as (res & E & Hp & Hf).
  - unfold in_domain; cbn. repeat split; try lra; lia.
  - reflexivity.
  - exists res. split; [exact E|]. split; [exact Hp|].
    apply Hf. cbn. lra.
Defined.

(** With a loan principal of -100000 the clamp resets the balance to 0
    in year 1, so the final record does not show the loan principal. *)
Lemma interest_only_final_balance_differs :
  in_domain negative_interest_only_inputs /\
  interest_only_period negative_interest_only_inputs =
    loan_term negative_interest_only_inputs /\
  exists (res : ScenarioResult) (final : YearRecord),
    project negative_interest_only_inputs = Some res /\
    last_item (Data res) = Some final /\
    Loan final == 0 /\
    ~ Loan final == loan_amount negative_interest_only_inputs.
Proof.
  split; [unfold in_domain; cbn; repeat split; try lra; lia|].
  split; [reflexivity|].
  destruct (project_rows negative_interest_only_inputs) as (res & E & D & _);
    [cbn; lia|].
  exists res. eexists. split; [exact E|]. rewrite D.
  split; [apply data_run_last|].
  split; vm_compute; congruence.
Qed.

(** ** C10: balance plus principal paid *)

(** C10 (as amended).  For every in-domain parameter set whose loan
    principal is not negative, at the end of every year of the
    projection the loan balance plus the cumulative principal paid
    equals the original loan principal; the principal payment of a year
    never exceeds the balance the year starts from, so the clamp of the
    balance at 0 never takes effect. *)
Theorem balance_plus_principal (g : ScenarioParameters) :
  in_domain g ->
  0 <= loan_amount g ->
  exists res : ScenarioResult,
    project g = Some res /\
    forall k : nat,
      (k <= Z.to_nat (holding_period g))%nat ->
      let st := run g (purchase_price g) (loan_amount g) (interest_rate g)
                    (capital_growth g) (S k) in
      exists row : YearRecord,
        nth_error (Data res) k = Some row /\
        current_loan st = Loan row /\
        total_principal_paid st == sumQ (map Principal (firstn k (tl (Data res)))) /\
        Loan row + sumQ (map Principal (firstn k (tl (Data res)))) == loan_amount g /\
        ((1 <= k)%nat ->
         exists prev : YearRecord,
           nth_error (Data res) (k - 1) = Some prev /\
           Principal row <= Loan prev /\
           Loan row == Loan prev - Principal row).
Proof.
  intros ((Hr & _) & _ & _ & _ & _ & _ & Hh) Hl.
  destruct (project_rows g) as (res & E & D & _ & Hrow); [lia|].
  exists res. split; [exact E|].
  intros k Hk st.
  destruct (loan_invariant g (purchase_price g) (loan_amount g) (interest_rate g)
              (capital_growth g) (S k) Hr Hl) as [_ Hsum].
  pose proof (total_principal_run g (purchase_price g) (loan_amount g)
                (interest_rate g) (capital_growth g) (S k)) as Htot.
  rewrite (data_run_firstn g _ _ _ _ (S (Z.to_nat (holding_period g))) (S k)) in Htot
    by lia.
  rewrite <- D, tl_firstn in Htot.
  eexists. split; [apply Hrow; lia|].
  split; [apply loan_prev|].
  split; [exact Htot|].
  split; [rewrite <- loan_prev, <- Htot; exact Hsum|].
  intros Hk1. eexists. split; [apply Hrow; lia|].
  destruct k as [|k]; [lia|]. replace (S k - 1)%nat with k by lia.
  rewrite <- (loan_prev g _ _ _ _ k).
  destruct (loan_row_no_clamp g (purchase_price g) (loan_amount g) (interest_rate g)
              (capital_growth g)
              (run g (purchase_price g) (loan_amount g) (interest_rate g)
                   (capital_growth g) (S k))
              (Z.of_nat (S k))) as (Eq & Hb);
    [lia | assumption | apply loan_invariant; assumption |].
  rewrite Eq. split; [apply Hb | reflexivity].
Qed.

Lemma balance_plus_principal_witness :
  exists (res : ScenarioResult) (row prev : YearRecord),
    project default_inputs = Some res /\
    nth_error (Data res) 1 = Some row /\
    nth_error (Data res) 0 = Some prev /\
    Loan row + sumQ (map Principal (firstn 1 (tl (Data res)))) == 600000 /\
    Principal row <= Loan prev /\
    Loan row == Loan prev - Principal row.
Proof.
  destruct (balance_plus_principal default_inputs) as (res & E & Hyear).
  - unfold in_domain; cbn. repeat split; try lra; lia.
  - cbn. lra.
  - destruct (Hyear 1%nat) as (row & Hrow & _ & _ & Hsum & Hprev); [cbn; lia|].
    destruct Hprev as (prev & Hp & Hle & Heq); [lia|].
    exists res, row, prev. repeat split; assumption.
Defined.

(** With a loan principal of -100000, year 1 pays a negative principal
    and the clamp resets the balance to 0: balance plus principal paid is
    no longer the loan principal. *)
Lemma balance_plus_principal_breaks :
  in_domain negative_loan_inputs /\
  exists (res : ScenarioResult) (r1 : YearRecord),
    project negative_loan_inputs = Some res /\
    nth_error (Data res) 1 = Some r1 /\
    current_loan (run negative_loan_inputs 750000 (- 100000) 0.06 0.05 2) = Loan r1 /\
    total_principal_paid (run negative_loan_inputs 750000 (- 100000) 0.06 0.05 2)
      == Principal r1 /\
    Loan r1 == 0 /\
    Principal r1 < 0 /\
    ~ Loan r1 + Principal r1 == loan_amount negative_loan_inputs.
Proof.
  split; [unfold in_domain; cbn; repeat split; try lra; lia|].
  destruct (project_rows negative_loan_inputs) as (res & E & _ & _ & Hrow); [cbn; lia|].
  exists res. eexists.
  split; [exact E|]. split; [apply Hrow; cbn; lia|].
  split; [reflexivity|].
  repeat split; vm_compute; congruence.
Qed.

(** ** C5: the cash-on-cash multiple *)

Lemma Qdiv_eq_0 (a b : Q) : 0 < b -> (a / b == 0 <-> a == 0).
Proof.
  intros Hb. split; intros H.
  - setoid_replace a with (a / b * b) by (field; lra). rewrite H. ring.
  - rewrite H. field. lra.
Qed.

(** C5 (as amended).  For every in-domain parameter set, the
    cash-on-cash multiple returned by [project] is 0 if (initial equity +
    total principal paid) <= 0 and otherwise (sum of the post-tax cash
    flows of years 1..holding period + net proceeds post-tax) divided by
    (initial equity + total principal paid); the division is only made
    by a positive denominator.  The multiple is 0 exactly when the
    denominator is <= 0 or the numerator is 0. *)
Theorem cash_on_cash_multiple (g : ScenarioParameters) :
  in_domain g ->
  exists (res : ScenarioResult) (v : Locals),
    project g = Some res /\
    project_locals g = Some v /\
    total_cash_in v
      == sumQ (map Post_Tax_CF (tl (Data res))) + net_proceeds_post_tax v /\
    total_cash_out v
      == initial_equity (purchase_price g) (loan_amount g)
         + sumQ (map Principal (tl (Data res))) /\
    (total_cash_out v <= 0 -> Cash_on_Cash res == 0) /\
    (0 < total_cash_out v ->
     Cash_on_Cash res == total_cash_in v / total_cash_out v) /\
    (Cash_on_Cash res == 0 <-> total_cash_out v <= 0 \/ total_cash_in v == 0).
Proof.
  intros (_ & _ & _ & _ & _ & _ & Hh).
  destruct (scenario_some g (purchase_price g) (loan_amount g)
              (interest_rate g) (capital_growth g))
    as (v & res & Ev & E & _ & D & Hcoc & _); [lia|].
  destruct (locals_some g (purchase_price g) (loan_amount g)
              (interest_rate g) (capital_growth g))
    as (v' & Ev' & _ & _ & _ & _ & _ & Hin & Hout & Hdef); [lia|].
  unfold project_locals. rewrite Ev in Ev'. injection Ev' as <-.
  exists res, v. split; [exact E|]. split; [exact Ev|].
  rewrite Hcoc, Hdef, D.
  split; [rewrite Hin; reflexivity|].
  split; [rewrite Hout, total_principal_run; reflexivity|].
  destruct (Qltb 0 (total_cash_out v)) eqn:Hb.
  - apply Qltb_true in Hb.
    split; [intros Hle; lra|]. split; [reflexivity|].
    rewrite (Qdiv_eq_0 _ _ Hb). split; [intros H0; right; exact H0|].
    intros [Hle|H0]; [lra | exact H0].
  - apply Qltb_false in Hb.
    split; [reflexivity|]. split; [intros Hlt; lra|].
    split; [intros _; left; exact Hb | reflexivity].
Qed.

Lemma cash_on_cash_multiple_witness :
  exists (res : ScenarioResult) (v : Locals),
    project default_inputs = Some res /\
    project_locals default_inputs = Some v /\
    total_cash_in v
      == sumQ (map Post_Tax_CF (tl (Data res))) + net_proceeds_post_tax v /\
    total_cash_out v
      == initial_equity 750000 600000 + sumQ (map Principal (tl (Data res))) /\
    (total_cash_out v <= 0 -> Cash_on_Cash res == 0) /\
    (0 < total_cash_out v ->
     Cash_on_Cash res == total_cash_in v / total_cash_out v) /\
    (Cash_on_Cash res == 0 <-> total_cash_out v <= 0 \/ total_cash_in v == 0).
Proof.
  apply (cash_on_cash_multiple default_inputs).
  unfold in_domain; cbn. repeat split; try lra; lia.
Defined.

(** With [break_even_inputs] the denominator is 3040 and the numerator
    is -975 + 975 = 0: the multiple is 0 with a positive denominator. *)
Lemma cash_on_cash_zero_with_positive_outlay :
  in_domain break_even_inputs /\
  exists (res : ScenarioResult) (v : Locals),
    project break_even_inputs = Some res /\
    project_locals break_even_inputs = Some v /\
    Cash_on_Cash res == 0 /\
    total_cash_out v == 3040 /\
    total_cash_out v
      == initial_equity 1000 0 + total_principal_paid (final_state v) /\
    ~ total_cash_out v <= 0.
Proof.
  split; [unfold in_domain; cbn; repeat split; try lra; lia|].
  destruct (scenario_some break_even_inputs 1000 0 0.06 0)
    as (v & res & Ev & E & _ & _ & Hcoc & _); [cbn; lia|].
  exists res, v. split; [exact E|]. split; [exact Ev|].
  rewrite Hcoc. vm_compute in Ev. injection Ev as <-.
  repeat split; vm_compute; congruence.
Qed.

(** ** C7: the sensitivity matrix *)

Lemma mapM_some {A B : Type} (f : A -> option B) (l : list A) :
  (forall a, In a l -> exists b, f a = Some b) ->
  exists bs : list B,
    mapM f l = Some bs /\
    length bs = length l /\
    forall (i : nat) (a : A),
      nth_error l i = Some a ->
      exists b : B, nth_error bs i = Some b /\ f a = Some b.
Proof.
  induction l as [|a l IH]; intros Hf.
  - exists []. repeat split. intros [|i] a H; discriminate.
  - destruct (Hf a (or_introl eq_refl)) as (b & Hb).
    destruct IH as (bs & Hbs & Hlen & Hnth);
      [intros a' Ha'; apply Hf; right; exact Ha'|].
    exists (b :: bs). cbn [mapM bind]. rewrite Hb, Hbs. cbn [bind length].
    split; [reflexivity|]. split; [congruence|].
    intros [|i] a' H; cbn [nth_error] in *.
    + injection H as <-. exists b. split; [reflexivity | exact Hb].
    + apply Hnth. exact H.
Qed.

(** The engine reads neither the interest rate nor the growth rate of
    the inputs: both come as arguments. *)
Lemma project_with_rates (g : ScenarioParameters) (ir cg : Q) :
  project (with_rates g ir cg) =
  calculate_scenario g (purchase_price g) (loan_amount g) ir cg.
Proof. reflexivity. Qed.

(** C7.  For every in-domain base parameter set and every cell (i, j) of
    the sweep, the matrix entry at row i, column j is the post-tax IRR of
    [project] applied to the base parameters with only the interest rate
    replaced by the i-th axis rate and the capital growth rate by the
    j-th axis rate; a sweep over axes of one rate each yields the single
    cell of [project] with those overrides. *)
Theorem sweep_cells (g : ScenarioParameters) (interest_axis growth_axis : list Q) :
  in_domain g ->
  exists matrix : list (list (option Q)),
    sweep g interest_axis growth_axis = Some matrix /\
    length matrix = length interest_axis /\
    (forall (i j : nat) (ir cg : Q),
        nth_error interest_axis i = Some ir ->
        nth_error growth_axis j = Some cg ->
        exists (row : list (option Q)) (res : ScenarioResult),
          nth_error matrix i = Some row /\
          length row = length growth_axis /\
          project (with_rates g ir cg) = Some res /\
          nth_error row j = Some (IRR_Post_Tax res)) /\
    (forall ir cg : Q,
        interest_axis = [ir] -> growth_axis = [cg] ->
        exists res : ScenarioResult,
          project (with_rates g ir cg) = Some res /\
          matrix = [[IRR_Post_Tax res]]).
Proof.
  intros (_ & _ & _ & _ & _ & _ & Hh).
  set (cell := fun ir cg =>
                 res <- calculate_scenario g (purchase_price g) (loan_amount g) ir cg ;;
                 Some (IRR_Post_Tax res)).
  assert (Hcell : forall ir cg, exists res,
               project (with_rates g ir cg) = Some res /\
               cell ir cg = Some (IRR_Post_Tax res)).
  { intros ir cg.
    destruct (scenario_some g (purchase_price g) (loan_amount g) ir cg)
      as (_ & res & _ & E & _); [lia|].
    exists res. rewrite project_with_rates. unfold cell. rewrite E.
    split; reflexivity. }
  assert (Hrow : forall ir, exists row,
               mapM (cell ir) growth_axis = Some row /\
               length row = length growth_axis /\
               forall j cg, nth_error growth_axis j = Some cg ->
                            exists c, nth_error row j = Some c /\ cell ir cg = Some c).
  { intros ir. apply mapM_some. intros cg _.
    destruct (Hcell ir cg) as (res & _ & Hc). eexists. exact Hc. }
  destruct (mapM_some (fun ir => mapM (cell ir) growth_axis) interest_axis)
    as (matrix & Hm & Hlen & Hnth).
  { intros ir _. destruct (Hrow ir) as (row & Hr & _). exists row. exact Hr. }
  exists matrix. split; [exact Hm|]. split; [exact Hlen|]. split.
  - intros i j ir cg Hi Hj.
    destruct (Hnth i ir Hi) as (row & Hrow_i & Hrow_eq).
    destruct (Hrow ir) as (row' & Hr' & Hlen' & Hcells).
    rewrite Hr' in Hrow_eq. injection Hrow_eq as <-.
    destruct (Hcells j cg Hj) as (c & Hc & Hcell_eq).
    destruct (Hcell ir cg) as (res & Hp & Hres).
    rewrite Hres in Hcell_eq. injection Hcell_eq as <-.
    exists row', res. repeat split; assumption.
  - intros ir cg -> ->.
    destruct (Hcell ir cg) as (res & Hp & Hres).
    exists res. split; [exact Hp|].
    unfold sweep in Hm. cbn [mapM bind] in Hm. fold (cell ir cg) in Hm.
    rewrite Hres in Hm. cbn [bind] in Hm. congruence.
Qed.

Lemma sweep_cells_witness :
  exists (matrix : list (list (option Q))) (res : ScenarioResult),
    sweep default_inputs [0.06] [0.05] = Some matrix /\
    project (with_rates default_inputs 0.06 0.05) = Some res /\
    nth_error matrix 0 = Some [IRR_Post_Tax res] /\
    matrix = [[IRR_Post_Tax res]].
Proof.
  destruct (sweep_cells default_inputs [0.06] [0.05])
    as (matrix & Hm & _ & _ & Hone).
  - unfold in_domain; cbn. repeat split; try lra; lia.
  - destruct (Hone 0.06 0.05 eq_refl eq_refl) as (res & Hp & Heq).
    exists matrix, res. split; [exact Hm|]. split; [exact Hp|].
    split; [rewrite Heq; reflexivity | exact Heq].
Defined.

(** A sweep over one interest rate and one growth rate. *)
Example sweep_single_cell :
  exists res : ScenarioResult,
    project (with_rates cash_back_inputs 0.05 0.04) = Some res /\
    sweep cash_back_inputs [0.05] [0.04] = Some [[IRR_Post_Tax res]].
Proof.
  eexists. split; vm_compute; reflexivity.
Qed.

(** * Further properties of the engine *)

(** ** When the function returns *)

Lemma range_nonpos (n : Z) : (n <= 0)%Z -> range n = [].
Proof.
  intros Hn. unfold range. destruct n; [reflexivity | lia | reflexivity].
Qed.

(** The [IndexError] of [data[-1]] arises exactly when the holding
    period is negative: the loop then does not run at all, [data] stays
    empty, and [calculate_scenario] stops there without a result. *)
Theorem negative_holding_period_fails
        (g : ScenarioParameters) (p_price l_amount i_rate cap_growth : Q) :
  (last_item (data (loop g p_price l_amount i_rate cap_growth)) = None
   <-> (holding_period g < 0)%Z) /\
  ((holding_period g < 0)%Z ->
   data (loop g p_price l_amount i_rate cap_growth) = [] /\
   calculate_scenario g p_price l_amount i_rate cap_growth = None).
Proof.
  assert (Hneg : (holding_period g < 0)%Z ->
                 data (loop g p_price l_amount i_rate cap_growth) = []).
  { intros Hh. unfold loop. rewrite range_nonpos by lia. reflexivity. }
  split; [split|].
  - intros Hnone.
    destruct (Z.ltb_spec (holding_period g) 0) as [Hlt|Hge]; [exact Hlt|].
    rewrite data_loop_last in Hnone by exact Hge. discriminate.
  - intros Hlt. rewrite (Hneg Hlt). reflexivity.
  - intros Hlt. split; [exact (Hneg Hlt)|].
    unfold calculate_scenario, locals. rewrite (Hneg Hlt). reflexivity.
Qed.

Lemma negative_holding_period_fails_witness :
  data (loop negative_hold_inputs 750000 600000 0.06 0.05) = [] /\
  project negative_hold_inputs = None.
Proof.
  apply (negative_holding_period_fails negative_hold_inputs 750000 600000 0.06 0.05).
  cbn. lia.
Defined.

(** ** The ledger *)

Lemma year_row_year (g : ScenarioParameters) (p_price l_amount i_rate cap_growth : Q)
      (st : LoopState) (year : Z) :
  Year (year_row g p_price l_amount i_rate cap_growth st year) = year.
Proof.
  unfold year_row. destruct (year =? 0)%Z; reflexivity.
Qed.

(** The ledger returned for a holding period of [h >= 0] years has
    [h + 1] rows, and row [k] carries the year index [k]: the rows are in
    chronological order, one per year [0 .. h]. *)
Theorem ledger_years (g : ScenarioParameters) (p_price l_amount i_rate cap_growth : Q) :
  (0 <= holding_period g)%Z ->
  exists res : ScenarioResult,
    calculate_scenario g p_price l_amount i_rate cap_growth = Some res /\
    Z.of_nat (length (Data res)) = (holding_period g + 1)%Z /\
    map Year (Data res) = range (holding_period g + 1) /\
    forall (k : nat) (row : YearRecord),
      nth_error (Data res) k = Some row -> Year row = Z.of_nat k.
Proof.
  intros Hh.
  destruct (scenario_some g p_price l_amount i_rate cap_growth Hh)
    as (_ & res & _ & E & _ & D & _).
  exists res. split; [exact E|]. rewrite D.
  assert (Hrows : forall k row,
             nth_error (data (run g p_price l_amount i_rate cap_growth
                                  (S (Z.to_nat (holding_period g))))) k = Some row ->
             Year row = Z.of_nat k).
  { intros k row Hk.
    assert (Hlt : (k < S (Z.to_nat (holding_period g)))%nat).
    { rewrite <- (data_run_length g p_price l_amount i_rate cap_growth).
      apply nth_error_Some. congruence. }
    rewrite data_run_nth in Hk by exact Hlt. injection Hk as <-.
    apply year_row_year. }
  split; [rewrite data_run_length; lia|]. split; [|exact Hrows].
  unfold range. replace (Z.to_nat (holding_period g + 1))
    with (S (Z.to_nat (holding_period g))) by lia.
  apply nth_error_ext. intros k.
  rewrite !nth_error_map, nth_error_seq.
  destruct (Nat.ltb_spec k (S (Z.to_nat (holding_period g)))) as [Hlt|Hge].
  - rewrite data_run_nth by exact Hlt. cbn. rewrite year_row_year. reflexivity.
  - assert (Hn : nth_error (data (run g p_price l_amount i_rate cap_growth
                                      (S (Z.to_nat (holding_period g))))) k = None).
    { apply nth_error_None. rewrite data_run_length. exact Hge. }
    rewrite Hn. reflexivity.
Qed.

Lemma ledger_years_witness :
  exists res : ScenarioResult,
    project default_inputs = Some res /\
    Z.of_nat (length (Data res)) = 11%Z /\
    map Year (Data res) = [0; 1; 2; 3; 4; 5; 6; 7; 8; 9; 10]%Z /\
    forall (k : nat) (row : YearRecord),
      nth_error (Data res) k = Some row -> Year row = Z.of_nat k.
Proof.
  apply (ledger_years default_inputs 750000 600000 0.06 0.05). cbn. lia.
Defined.

(** ** Appreciation and the sale *)

Section Sale.

Variable g : ScenarioParameters.
Variables p_price l_amount i_rate cap_growth : Q.

Local Abbreviation runN := (run g p_price l_amount i_rate cap_growth).
Local Abbreviation rowY := (year_row g p_price l_amount i_rate cap_growth).
Local Abbreviation equity := (initial_equity p_price l_amount).
Local Abbreviation hp := (Z.to_nat (holding_period g)).

Lemma run_S_value (n : nat) :
  (1 <= n)%nat -> current_value (runN (S n)) = Value (rowY (runN n) (Z.of_nat n)).
Proof.
  intros Hn. rewrite run_S. unfold step.
  destruct (Z.eqb_spec (Z.of_nat n) 0); [lia | reflexivity].
Qed.

Lemma value_prev (k : nat) :
  current_value (runN (S k)) = Value (rowY (runN k) (Z.of_nat k)).
Proof.
  destruct k as [|k]; [reflexivity|]. apply run_S_value. lia.
Qed.

(** From one row to the next the value grows by the growth rate. *)
Lemma value_row_step (k : nat) :
  Value (rowY (runN (S k)) (Z.of_nat (S k)))
  = Value (rowY (runN k) (Z.of_nat k)) * (1 + cap_growth).
Proof.
  rewrite year_row_pos by lia. cbn [Value]. rewrite value_prev. reflexivity.
Qed.

Lemma value_row (k : nat) :
  Value (rowY (runN k) (Z.of_nat k)) == p_price * (1 + cap_growth) ^ Z.of_nat k.
Proof.
  induction k as [|k IH].
  - cbn. ring.
  - rewrite value_row_step, IH.
    replace (Z.of_nat (S k)) with (Z.of_nat k + 1)%Z by lia.
    rewrite Qpower_plus' by lia. rewrite Qpower_1_r. ring.
Qed.

(** The ledger in closed form: one row per iteration. *)
Lemma data_run_map (n : nat) :
  data (runN n) = map (fun k => rowY (runN k) (Z.of_nat k)) (seq 0 n).
Proof.
  induction n as [|n IH]; [reflexivity|].
  rewrite run_S, data_step, IH, seq_S, map_app. reflexivity.
Qed.

(** The capital-gains tax as the function computes it. *)
Lemma locals_cgt (v : Locals) :
  (0 <= holding_period g)%Z ->
  locals g p_price l_amount i_rate cap_growth = Some v ->
  let sale_price := Value (rowY (runN hp) (holding_period g)) in
  let gross_gain :=
    sale_price - sale_price * 0.025
    - (p_price + stamp_duty p_price + closing_costs) in
  cgt_payable v =
  (if (holding_period g >? 1)%Z then gross_gain * 0.5 else gross_gain)
  * marginal_tax_rate g.
Proof.
  intros Hh E. unfold locals in E.
  rewrite data_loop_last in E by assumption. cbn [bind] in E.
  injection E as <-. reflexivity.
Qed.

End Sale.

(** The value column compounds the capital growth rate: the value
    recorded for year [k] is purchase price * (1 + growth)^k, so the sale
    price is purchase price * (1 + growth)^holding period. *)
Theorem value_appreciation (g : ScenarioParameters) (p_price l_amount i_rate cap_growth : Q) :
  (0 <= holding_period g)%Z ->
  exists res : ScenarioResult,
    calculate_scenario g p_price l_amount i_rate cap_growth = Some res /\
    forall (k : nat) (row : YearRecord),
      nth_error (Data res) k = Some row ->
      Value row == p_price * (1 + cap_growth) ^ Z.of_nat k.
Proof.
  intros Hh.
  destruct (scenario_some g p_price l_amount i_rate cap_growth Hh)
    as (_ & res & _ & E & _ & D & _).
  exists res. split; [exact E|]. rewrite D. intros k row Hk.
  assert (Hlt : (k < S (Z.to_nat (holding_period g)))%nat).
  { rewrite <- (data_run_length g p_price l_amount i_rate cap_growth).
    apply nth_error_Some. congruence. }
  rewrite data_run_nth in Hk by exact Hlt. injection Hk as <-.
  apply value_row.
Qed.

Lemma value_appreciation_witness :
  exists res : ScenarioResult,
    project default_inputs = Some res /\
    forall (k : nat) (row : YearRecord),
      nth_error (Data res) k = Some row ->
      Value row == 750000 * (1 + 0.05) ^ Z.of_nat k.
Proof.
  apply (value_appreciation default_inputs 750000 600000 0.06 0.05). cbn. lia.
Defined.

(** The capital-gains tax in closed form.  With the sale price
    S = purchase price * (1 + growth)^holding period, the gross gain is
    0.975 * S - (1.04 * purchase price + 2000); it is taxed in full at the
    marginal rate for a holding period of one year (or less), and at half
    that for any longer holding period. *)
Theorem capital_gains_tax (g : ScenarioParameters) (p_price l_amount i_rate cap_growth : Q) :
  (0 <= holding_period g)%Z ->
  exists v : Locals,
    locals g p_price l_amount i_rate cap_growth = Some v /\
    let sale_price := p_price * (1 + cap_growth) ^ holding_period g in
    let gross_gain := 0.975 * sale_price - (1.04 * p_price + 2000) in
    ((holding_period g <= 1)%Z ->
     cgt_payable v == gross_gain * marginal_tax_rate g) /\
    ((1 < holding_period g)%Z ->
     cgt_payable v == gross_gain * marginal_tax_rate g / 2) /\
    net_proceeds_pre_tax v - net_proceeds_post_tax v == cgt_payable v.
Proof.
  intros Hh.
  destruct (locals_some g p_price l_amount i_rate cap_growth Hh)
    as (v & Ev & _ & Npre & Npost & _).
  exists v. split; [exact Ev|].
  pose proof (locals_cgt g p_price l_amount i_rate cap_growth v Hh Ev) as Hc.
  pose proof (value_row g p_price l_amount i_rate cap_growth
                (Z.to_nat (holding_period g))) as Hv.
  rewrite Z2Nat.id in Hv by exact Hh.
  cbv zeta in *. unfold stamp_duty, closing_costs in Hc.
  split; [|split].
  - intros Hle. rewrite Hc.
    destruct (Z.gtb_spec (holding_period g) 1) as [Hgt|_]; [lia|].
    rewrite Hv. ring.
  - intros Hgt. rewrite Hc.
    destruct (Z.gtb_spec (holding_period g) 1) as [_|Hle]; [|lia].
    rewrite Hv. field.
  - rewrite Npre, Npost. ring.
Qed.

Lemma capital_gains_tax_witness :
  exists v : Locals,
    project_locals default_inputs = Some v /\
    cgt_payable v
    == (0.975 * (750000 * (1 + 0.05) ^ 10) - (1.04 * 750000 + 2000)) * 0.37 / 2.
Proof.
  destruct (capital_gains_tax default_inputs 750000 600000 0.06 0.05)
    as (v & E & _ & Hlong & _); [cbn; lia|].
  exists v. split; [exact E|]. apply Hlong. cbn. lia.
Defined.

(** ** Net profit and cash invested *)

(** The net profit is the cash taken out less the initial equity: every
    year's post-tax cash flow enters the post-tax stream once, the final
    year's together with the sale proceeds, so the flow withheld in the
    loop is neither lost nor counted twice. *)
Theorem net_profit_identity (g : ScenarioParameters) (p_price l_amount i_rate cap_growth : Q) :
  (1 <= holding_period g)%Z ->
  exists (v : Locals) (res : ScenarioResult),
    locals g p_price l_amount i_rate cap_growth = Some v /\
    calculate_scenario g p_price l_amount i_rate cap_growth = Some res /\
    Net_Profit res
    == - initial_equity p_price l_amount
       + sumQ (map Post_Tax_CF (tl (Data res))) + net_proceeds_post_tax v /\
    Net_Profit res == total_cash_in v - initial_equity p_price l_amount.
Proof.
  intros Hh.
  destruct (scenario_some g p_price l_amount i_rate cap_growth)
    as (v & res & Ev & E & _ & D & _ & Hnet & _); [lia|].
  destruct (locals_some g p_price l_amount i_rate cap_growth)
    as (v' & Ev' & _ & _ & _ & _ & _ & Hin & _); [lia|].
  rewrite Ev in Ev'. injection Ev' as <-.
  destruct (streams_shape g p_price l_amount i_rate cap_growth v Hh Ev) as [_ Spost].
  exists v, res. split; [exact Ev|]. split; [exact E|].
  set (hp := Z.to_nat (holding_period g)) in *.
  assert (Hsum : Net_Profit res
                 == - initial_equity p_price l_amount
                    + sumQ (map Post_Tax_CF
                              (tl (data (run g p_price l_amount i_rate cap_growth (S hp)))))
                    + net_proceeds_post_tax v).
  { rewrite Hnet, Spost, data_run_map.
    assert (Hhp : (1 <= hp)%nat) by (subst hp; lia).
    assert (Hz : Z.of_nat hp = holding_period g) by (subst hp; lia).
    assert (Hs : seq 0 (S hp) = 0%nat :: seq 1 (hp - 1) ++ [hp]).
    { cbn [seq]. f_equal.
      replace hp with (S (hp - 1)) at 1 by lia. rewrite seq_S.
      repeat f_equal. lia. }
    rewrite Hs. cbn [map tl]. rewrite !map_app, map_map. cbn [map].
    rewrite Hz, sumQ_cons, !sumQ_app. ring. }
  split.
  - rewrite D. exact Hsum.
  - rewrite Hsum, Hin. ring.
Qed.

Lemma net_profit_identity_witness :
  exists (v : Locals) (res : ScenarioResult),
    project_locals default_inputs = Some v /\
    project default_inputs = Some res /\
    Net_Profit res
    == - initial_equity 750000 600000
       + sumQ (map Post_Tax_CF (tl (Data res))) + net_proceeds_post_tax v /\
    Net_Profit res == total_cash_in v - initial_equity 750000 600000.
Proof.
  apply (net_profit_identity default_inputs 750000 600000 0.06 0.05). cbn. lia.
Defined.

(** The denominator of the cash-on-cash multiple in exact arithmetic,
    for a rate and a loan that are not negative: the initial equity
    plus the principal repaid is the total upfront cost less the loan
    balance still owed at the sale. *)
Theorem cash_invested (g : ScenarioParameters) (p_price l_amount i_rate cap_growth : Q) :
  (0 <= holding_period g)%Z ->
  0 <= i_rate ->
  0 <= l_amount ->
  exists (v : Locals) (res : ScenarioResult) (final : YearRecord),
    locals g p_price l_amount i_rate cap_growth = Some v /\
    calculate_scenario g p_price l_amount i_rate cap_growth = Some res /\
    last_item (Data res) = Some final /\
    total_cash_out v == total_upfront_cost p_price - Loan final.
Proof.
  intros Hh Hr Hl.
  destruct (scenario_some g p_price l_amount i_rate cap_growth Hh)
    as (v & res & Ev & E & _ & D & _).
  destruct (locals_some g p_price l_amount i_rate cap_growth Hh)
    as (v' & Ev' & _ & _ & _ & _ & _ & _ & Hout & _).
  rewrite Ev in Ev'. injection Ev' as <-.
  exists v, res. eexists. split; [exact Ev|]. split; [exact E|].
  rewrite D. split; [apply data_run_last|].
  destruct (loan_invariant g p_price l_amount i_rate cap_growth
              (S (Z.to_nat (holding_period g))) Hr Hl) as [Hnn Hinv].
  rewrite loan_prev in Hinv, Hnn.
  rewrite Hout. unfold initial_equity. lra.
Qed.

Lemma cash_invested_witness :
  exists (v : Locals) (res : ScenarioResult) (final : YearRecord),
    project_locals default_inputs = Some v /\
    project default_inputs = Some res /\
    last_item (Data res) = Some final /\
    total_cash_out v == total_upfront_cost 750000 - Loan final.
Proof.
  apply (cash_invested default_inputs 750000 600000 0.06 0.05).
  - cbn. lia.
  - lra.
  - lra.
Defined.

(** ** The three phases of the loan *)

Lemma clamp_nonneg (x : Q) : 0 <= x -> (if Qltb x 0 then 0 else x) = x.
Proof.
  intros Hx. assert (Hf : Qltb x 0 = false) by (apply Qltb_false; exact Hx).
  rewrite Hf. reflexivity.
Qed.

Lemma inject_Z_pred (n : Z) : inject_Z n == inject_Z (n - 1) + 1.
Proof.
  unfold Qeq. cbn. lia.
Qed.

(** In the last year of the term the payment clears the balance. *)
Lemma payment_final_year (rate pv : Q) : payment rate 1 pv - pv * rate == pv.
Proof.
  destruct (Qeq_dec rate 0) as [Hz|Hnz].
  - rewrite (payment_zero_rate rate 1 ltac:(lia) pv Hz), Hz.
    field; intros E; discriminate E.
  - unfold payment, pmt. cbv zeta.
    assert (Hb : Qeq_bool rate 0 = false).
    { apply not_true_iff_false. rewrite Qeq_bool_iff. exact Hnz. }
    rewrite Hb, Qpower_1_r. field. exact Hnz.
Qed.

(** Re-amortizing the reduced balance over one year less leaves the
    payment where it was. *)
Lemma level_payment (rate : Q) (nper : Z) (pv : Q) :
  0 <= rate -> (2 <= nper)%Z ->
  payment rate (nper - 1) (pv - (payment rate nper pv - pv * rate))
  == payment rate nper pv.
Proof.
  intros Hr Hn.
  set (P := payment rate nper pv).
  set (Y := payment rate (nper - 1) (pv - (P - pv * rate))).
  destruct (Qlt_le_dec 0 rate) as [Hpos|Hle].
  - pose proof (principal_positive_rate rate nper ltac:(lia) pv Hpos) as H2.
    pose proof (principal_positive_rate rate (nper - 1) ltac:(lia)
                  (pv - (P - pv * rate)) Hpos) as H1.
    fold P in H2. fold Y in H1.
    pose proof (growth_factor_bound rate (nper - 1) ltac:(lia) Hr) as Ha.
    assert (HT : (1 + rate) ^ nper == (1 + rate) ^ (nper - 1) * (1 + rate)).
    { replace nper with ((nper - 1) + 1)%Z at 1 by lia.
      rewrite Qpower_plus' by lia. rewrite Qpower_1_r. reflexivity. }
    rewrite HT in H2.
    set (a := (1 + rate) ^ (nper - 1)) in *.
    assert (HP : P == pv * rate + pv * rate / (a * (1 + rate) - 1))
      by (rewrite <- H2; ring).
    assert (HX : pv - (P - pv * rate) == pv - pv * rate / (a * (1 + rate) - 1))
      by (rewrite H2; reflexivity).
    assert (HY : Y == (pv - (P - pv * rate)) * rate
                      + (pv - (P - pv * rate)) * rate / (a - 1))
      by (rewrite <- H1; ring).
    rewrite HY, HX, HP. field.
    split; intros E.
    + assert (0 < a * (1 + rate) - 1) by nra. lra.
    + lra.
  - assert (Hz : rate == 0) by lra.
    pose proof (payment_zero_rate rate nper ltac:(lia) pv Hz) as H2.
    pose proof (payment_zero_rate rate (nper - 1) ltac:(lia)
                  (pv - (P - pv * rate)) Hz) as H1.
    fold P in H2. fold Y in H1.
    pose proof (inject_Z_nper_ge_1 (nper - 1) ltac:(lia)) as Hm.
    rewrite H1, H2, Hz, (inject_Z_pred nper).
    set (m := inject_Z (nper - 1)) in *.
    field. split; intros E; lra.
Qed.

Section Phases.

Variable g : ScenarioParameters.
Variables p_price l_amount i_rate cap_growth : Q.

Local Abbreviation runN := (run g p_price l_amount i_rate cap_growth).
Local Abbreviation rowY := (year_row g p_price l_amount i_rate cap_growth).

Lemma loan_calcs_interest_only (loan : Q) (year : Z) :
  (year <= interest_only_period g)%Z ->
  loan_calcs g i_rate loan year = (loan * i_rate, 0).
Proof.
  intros Hy. unfold loan_calcs.
  destruct (Z.leb_spec year (interest_only_period g)); [reflexivity | lia].
Qed.

Lemma loan_calcs_amortizing (loan : Q) (year : Z) :
  (interest_only_period g < year)%Z ->
  (0 < loan_term g - (year - 1))%Z ->
  loan_calcs g i_rate loan year =
  (loan * i_rate,
   payment i_rate (loan_term g - (year - 1)) loan - loan * i_rate).
Proof.
  intros Hy Ht. unfold loan_calcs.
  destruct (Z.leb_spec year (interest_only_period g)); [lia|].
  destruct (Z.gtb_spec (loan_term g - (year - 1)) 0); [reflexivity | lia].
Qed.

Lemma loan_calcs_closed (loan : Q) (year : Z) :
  (interest_only_period g < year)%Z ->
  (loan_term g - (year - 1) <= 0)%Z ->
  loan_calcs g i_rate loan year = (0, 0).
Proof.
  intros Hy Ht. unfold loan_calcs.
  destruct (Z.leb_spec year (interest_only_period g)); [lia|].
  destruct (Z.gtb_spec (loan_term g - (year - 1)) 0); [lia | reflexivity].
Qed.

(** The loan columns of the row of year [S k], from the balance the
    year before. *)
Lemma loan_columns (k : nat) :
  let prev := Loan (rowY (runN k) (Z.of_nat k)) in
  let row := rowY (runN (S k)) (Z.of_nat (S k)) in
  Interest row = fst (loan_calcs g i_rate prev (Z.of_nat (S k))) /\
  Principal row = snd (loan_calcs g i_rate prev (Z.of_nat (S k))) /\
  Loan row = if Qltb (prev - Principal row) 0 then 0 else prev - Principal row.
Proof.
  cbv zeta. rewrite <- loan_prev.
  apply interest_principal_row. lia.
Qed.

(** During the interest-only years the balance stays at the amount
    borrowed. *)
Lemma loan_interest_only_years (k : nat) :
  0 <= l_amount ->
  (Z.of_nat k <= interest_only_period g)%Z ->
  Loan (rowY (runN k) (Z.of_nat k)) == l_amount.
Proof.
  intros Hl. induction k as [|k IH]; intros Hk; [reflexivity|].
  destruct (loan_columns k) as (_ & Hp & Hloan).
  rewrite loan_calcs_interest_only in Hp by exact Hk. cbn [snd] in Hp.
  rewrite Hloan, Hp. rewrite clamp_nonneg; rewrite IH by lia; lra.
Qed.

(** From year 1 on, a recorded balance is never negative: the clamp
    sees to it. *)
Lemma loan_row_clamped (st : LoopState) (year : Z) :
  (year <> 0)%Z -> 0 <= Loan (rowY st year).
Proof.
  intros Hy.
  destruct (interest_principal_row g p_price l_amount i_rate cap_growth st year Hy)
    as (_ & _ & Hloan).
  rewrite Hloan.
  destruct (Qltb (current_loan st - Principal (rowY st year)) 0) eqn:Hb.
  - lra.
  - apply Qltb_false in Hb. exact Hb.
Qed.

End Phases.

(** During the interest-only period of a loan that is not negative, no
    principal is paid, the balance stays at the amount borrowed and the
    interest is the same every year: loan amount * interest rate. *)
Theorem interest_only_phase (g : ScenarioParameters) (p_price l_amount i_rate cap_growth : Q) :
  (0 <= holding_period g)%Z ->
  0 <= l_amount ->
  exists res : ScenarioResult,
    calculate_scenario g p_price l_amount i_rate cap_growth = Some res /\
    forall k : nat,
      (1 <= k <= Z.to_nat (holding_period g))%nat ->
      (Z.of_nat k <= interest_only_period g)%Z ->
      exists row : YearRecord,
        nth_error (Data res) k = Some row /\
        Principal row == 0 /\
        Interest row == l_amount * i_rate /\
        Loan row == l_amount.
Proof.
  intros Hh Hl.
  destruct (scenario_some g p_price l_amount i_rate cap_growth Hh)
    as (_ & res & _ & E & _ & D & _).
  exists res. split; [exact E|]. rewrite D. intros k Hk Hio.
  eexists. split; [apply data_run_nth; lia|].
  destruct k as [|k]; [lia|].
  destruct (loan_columns g p_price l_amount i_rate cap_growth k) as (Hi & Hp & _).
  rewrite loan_calcs_interest_only in Hi, Hp by exact Hio. cbn [fst snd] in Hi, Hp.
  rewrite Hi, Hp.
  split; [reflexivity|]. split.
  - rewrite loan_interest_only_years by (assumption || lia). reflexivity.
  - apply loan_interest_only_years; assumption.
Qed.

Lemma interest_only_phase_witness :
  exists (res : ScenarioResult) (row : YearRecord),
    project short_loan_inputs = Some res /\
    nth_error (Data res) 2 = Some row /\
    Principal row == 0 /\
    Interest row == 600000 * 0.06 /\
    Loan row == 600000.
Proof.
  destruct (interest_only_phase short_loan_inputs 750000 600000 0.06 0.05)
    as (res & E & Hyear).
  - cbn. lia.
  - lra.
  - destruct (Hyear 2%nat) as (row & H); [cbn; lia | cbn; lia |].
    exists res, row. split; [exact E | exact H].
Defined.

(** For a loan whose interest-only period is shorter than its term of
    at least one year: in the last year of the term the principal paid
    is the whole balance outstanding at the start of that year, whatever
    the rate and the amount; in every later year neither interest nor
    principal is paid and the recorded balance stays as it was. *)
Theorem loan_after_term (g : ScenarioParameters) (p_price l_amount i_rate cap_growth : Q) :
  (0 <= holding_period g)%Z ->
  (1 <= loan_term g)%Z ->
  (interest_only_period g < loan_term g)%Z ->
  exists res : ScenarioResult,
    calculate_scenario g p_price l_amount i_rate cap_growth = Some res /\
    forall k : nat,
      (1 <= k <= Z.to_nat (holding_period g))%nat ->
      exists prev row : YearRecord,
        nth_error (Data res) (k - 1) = Some prev /\
        nth_error (Data res) k = Some row /\
        (Z.of_nat k = loan_term g ->
         Interest row == Loan prev * i_rate /\ Principal row == Loan prev) /\
        ((loan_term g < Z.of_nat k)%Z ->
         Interest row == 0 /\ Principal row == 0 /\ Loan row == Loan prev).
Proof.
  intros Hh Ht Hio.
  destruct (scenario_some g p_price l_amount i_rate cap_growth Hh)
    as (_ & res & _ & E & _ & D & _).
  exists res. split; [exact E|]. rewrite D. intros k Hk.
  eexists. eexists.
  split; [apply data_run_nth; lia|]. split; [apply data_run_nth; lia|].
  destruct k as [|k]; [lia|]. replace (S k - 1)%nat with k by lia.
  destruct (loan_columns g p_price l_amount i_rate cap_growth k) as (Hi & Hp & Hloan).
  set (prev := Loan (year_row g p_price l_amount i_rate cap_growth
                       (run g p_price l_amount i_rate cap_growth k) (Z.of_nat k))) in *.
  split.
  - intros Hlast.
    rewrite loan_calcs_amortizing in Hi, Hp by lia. cbn [fst snd] in Hi, Hp.
    replace (loan_term g - (Z.of_nat (S k) - 1))%Z with 1%Z in Hp by lia.
    rewrite Hi, Hp. split; [reflexivity | apply payment_final_year].
  - intros Hafter.
    rewrite loan_calcs_closed in Hi, Hp by lia. cbn [fst snd] in Hi, Hp.
    assert (Hprev : 0 <= prev) by (apply loan_row_clamped; lia).
    rewrite Hloan, Hi, Hp.
    split; [reflexivity|]. split; [reflexivity|].
    rewrite clamp_nonneg; lra.
Qed.

Lemma loan_after_term_witness :
  exists (res : ScenarioResult) (row9 row10 row11 : YearRecord),
    project short_loan_inputs = Some res /\
    nth_error (Data res) 9 = Some row9 /\
    nth_error (Data res) 10 = Some row10 /\
    nth_error (Data res) 11 = Some row11 /\
    Interest row10 == Loan row9 * 0.06 /\ Principal row10 == Loan row9 /\
    Interest row11 == 0 /\ Principal row11 == 0 /\ Loan row11 == Loan row10.
Proof.
  destruct (loan_after_term short_loan_inputs 750000 600000 0.06 0.05)
    as (res & E & Hyear); [cbn; lia | cbn; lia | cbn; lia |].
  destruct (Hyear 10%nat) as (row9 & row10 & H9 & H10 & Hlast & _); [cbn; lia|].
  destruct (Hyear 11%nat) as (row10' & row11 & H10' & H11 & _ & Hafter); [cbn; lia|].
  cbn [Nat.sub] in H9, H10'.
  assert (Heq : row10' = row10) by congruence. subst row10'.
  destruct Hlast as [I10 P10]; [reflexivity|].
  destruct Hafter as (I11 & P11 & L11); [cbn; lia|].
  exists res, row9, row10, row11. repeat split; assumption.
Defined.

(** While the loan amortizes, with a rate and an amount that are not
    negative, the debt service (interest plus principal) of a year equals
    that of the year before: recomputing the payment each year from the
    reduced balance and the remaining term keeps it level. *)
Theorem level_debt_service (g : ScenarioParameters) (p_price l_amount i_rate cap_growth : Q) :
  (0 <= holding_period g)%Z ->
  0 <= i_rate ->
  0 <= l_amount ->
  exists res : ScenarioResult,
    calculate_scenario g p_price l_amount i_rate cap_growth = Some res /\
    forall k : nat,
      (1 <= k)%nat ->
      (S k <= Z.to_nat (holding_period g))%nat ->
      (interest_only_period g < Z.of_nat k)%Z ->
      (Z.of_nat k + 1 <= loan_term g)%Z ->
      exists prev row next : YearRecord,
        nth_error (Data res) (k - 1) = Some prev /\
        nth_error (Data res) k = Some row /\
        nth_error (Data res) (S k) = Some next /\
        Interest row + Principal row
        == payment i_rate (loan_term g - (Z.of_nat k - 1)) (Loan prev) /\
        Interest next + Principal next == Interest row + Principal row.
Proof.
  intros Hh Hr Hl.
  destruct (scenario_some g p_price l_amount i_rate cap_growth Hh)
    as (_ & res & _ & E & _ & D & _).
  exists res. split; [exact E|]. rewrite D. intros k Hk1 Hk Hio Hterm.
  eexists. eexists. eexists.
  split; [apply data_run_nth; lia|].
  split; [apply data_run_nth; lia|]. split; [apply data_run_nth; lia|].
  destruct k as [|k]; [lia|]. replace (S k - 1)%nat with k by lia.
  set (prev := Loan (year_row g p_price l_amount i_rate cap_growth
                       (run g p_price l_amount i_rate cap_growth k) (Z.of_nat k))).
  assert (Hprev : 0 <= prev) by (apply loan_row_nonneg; assumption).
  destruct (loan_columns g p_price l_amount i_rate cap_growth k) as (Hi & Hp & Hloan).
  destruct (loan_columns g p_price l_amount i_rate cap_growth (S k)) as (Hi' & Hp' & _).
  fold prev in Hi, Hp, Hloan.
  pose proof (principal_payment_bounds g i_rate prev (Z.of_nat (S k)) Hr Hprev) as Hb.
  rewrite <- Hp in Hb.
  rewrite clamp_nonneg in Hloan by lra.
  rewrite loan_calcs_amortizing in Hi, Hp by lia. cbn [fst snd] in Hi, Hp.
  rewrite loan_calcs_amortizing in Hi', Hp' by lia. cbn [fst snd] in Hi', Hp'.
  replace (loan_term g - (Z.of_nat (S (S k)) - 1))%Z
    with ((loan_term g - (Z.of_nat (S k) - 1)) - 1)%Z in Hp' by lia.
  set (n := (loan_term g - (Z.of_nat (S k) - 1))%Z) in *.
  pose proof (level_payment i_rate n prev Hr ltac:(lia)) as Hlevel.
  rewrite Hloan, Hp in Hi', Hp'.
  rewrite Hi', Hp'.
  set (P := payment i_rate n prev) in *.
  set (P' := payment i_rate (n - 1) (prev - (P - prev * i_rate))) in *.
  rewrite Hi, Hp. split.
  - ring.
  - rewrite Hlevel. ring.
Qed.

Lemma level_debt_service_witness :
  exists (res : ScenarioResult) (row next : YearRecord),
    project default_inputs = Some res /\
    nth_error (Data res) 1 = Some row /\
    nth_error (Data res) 2 = Some next /\
    Interest next + Principal next == Interest row + Principal row.
Proof.
  destruct (level_debt_service default_inputs 750000 600000 0.06 0.05)
    as (res & E & Hyear).
  - cbn. lia.
  - lra.
  - lra.
  - destruct (Hyear 1%nat) as (prev & row & next & _ & H1 & H2 & _ & Heq);
      [lia | cbn; lia | cbn; lia | cbn; lia |].
    exists res, row, next. repeat split; assumption.
Defined.

(** ** A marginal tax rate of zero *)





(** ** A holding period of zero *)

(** With a holding period of 0 the loop only records year 0 and the
    sale is computed from that row: the ledger has one row, the pre-tax
    stream is the outlay followed by the net sale proceeds, and the
    post-tax stream ends with the proceeds less the initial equity once
    more, because the year-0 row carries the negative initial equity as
    its post-tax cash flow. *)
Theorem zero_holding_period (g : ScenarioParameters) (p_price l_amount i_rate cap_growth : Q) :
  holding_period g = 0%Z ->
  exists (v : Locals) (res : ScenarioResult) (pre post : Q),
    locals g p_price l_amount i_rate cap_growth = Some v /\
    calculate_scenario g p_price l_amount i_rate cap_growth = Some res /\
    length (Data res) = 1%nat /\
    stream_pre_tax v = [- initial_equity p_price l_amount; pre] /\
    stream_post_tax v = [- initial_equity p_price l_amount; post] /\
    pre == 0.975 * p_price - l_amount /\
    post == pre - cgt_payable v - initial_equity p_price l_amount /\
    Net_Profit res
    == pre - cgt_payable v - 2 * initial_equity p_price l_amount.
Proof.
  intros H0.
  destruct (scenario_some g p_price l_amount i_rate cap_growth)
    as (v & res & Ev & E & _ & D & _ & Hnet & _); [lia|].
  destruct (locals_some g p_price l_amount i_rate cap_growth)
    as (v' & Ev' & _ & Npre & Npost & Spre & Spost & _); [lia|].
  rewrite Ev in Ev'. injection Ev' as <-.
  rewrite H0 in *. cbn in Npre, Npost, Spre, Spost, D.
  exists v, res. eexists. eexists.
  split; [exact Ev|]. split; [exact E|].
  split; [rewrite D; reflexivity|].
  split; [exact Spre|]. split; [exact Spost|].
  rewrite Hnet, Spost, Npre, Npost. unfold sumQ. cbn [fold_left].
  repeat split; ring.
Qed.

Lemma zero_holding_period_witness :
  exists (v : Locals) (res : ScenarioResult) (pre post : Q),
    project_locals zero_hold_inputs = Some v /\
    project zero_hold_inputs = Some res /\
    length (Data res) = 1%nat /\
    stream_pre_tax v = [- initial_equity 750000 600000; pre] /\
    stream_post_tax v = [- initial_equity 750000 600000; post] /\
    pre == 0.975 * 750000 - 600000 /\
    post == pre - cgt_payable v - initial_equity 750000 600000 /\
    Net_Profit res == pre - cgt_payable v - 2 * initial_equity 750000 600000.
Proof.
  apply (zero_holding_period zero_hold_inputs 750000 600000 0.06 0.05).
  reflexivity.
Defined.

(** ** The equity column *)

Lemma Some_eq {A : Type} (x y : A) : Some x = Some y -> x = y.
Proof.
  intros H. injection H as H. exact H.
Qed.

(** The equity charted for each year, value less loan, starts at
    purchase price less loan amount and never falls from one year to the
    next, for a price, a growth rate, an interest rate and a loan that
    are not negative. *)
Theorem equity_builds_up (g : ScenarioParameters) (p_price l_amount i_rate cap_growth : Q) :
  (0 <= holding_period g)%Z ->
  0 <= p_price -> 0 <= cap_growth -> 0 <= i_rate -> 0 <= l_amount ->
  exists res : ScenarioResult,
    calculate_scenario g p_price l_amount i_rate cap_growth = Some res /\
    length (equity_column (Data res)) = S (Z.to_nat (holding_period g)) /\
    nth_error (equity_column (Data res)) 0 = Some (p_price - l_amount) /\
    forall (k : nat) (e e' : Q),
      nth_error (equity_column (Data res)) k = Some e ->
      nth_error (equity_column (Data res)) (S k) = Some e' ->
      e <= e'.
Proof.
  intros Hh Hp Hg Hr Hl.
  destruct (scenario_some g p_price l_amount i_rate cap_growth Hh)
    as (_ & res & _ & E & _ & D & _).
  exists res. split; [exact E|]. rewrite D. unfold equity_column.
  split; [rewrite length_map; apply data_run_length|].
  split; [rewrite nth_error_map, data_run_nth by lia; reflexivity|].
  intros k e e' Hk Hk'. rewrite nth_error_map in Hk, Hk'.
  assert (Hlt : (S k < S (Z.to_nat (holding_period g)))%nat).
  { rewrite <- (data_run_length g p_price l_amount i_rate cap_growth).
    apply nth_error_Some. intros Hn. rewrite Hn in Hk'. discriminate. }
  rewrite data_run_nth in Hk, Hk' by lia.
  cbv [option_map] in Hk, Hk'.
  apply Some_eq in Hk, Hk'. subst e e'.
  rewrite value_row_step.
  pose proof (loan_row_decreasing g p_price l_amount i_rate cap_growth k Hr Hl) as Hdec.
  pose proof (value_row g p_price l_amount i_rate cap_growth k) as Hv.
  assert (Hpow : 0 <= (1 + cap_growth) ^ Z.of_nat k) by (apply Qpower_0_le; lra).
  assert (Hval : 0 <= Value (year_row g p_price l_amount i_rate cap_growth
                              (run g p_price l_amount i_rate cap_growth k)
                              (Z.of_nat k)))
    by (rewrite Hv; apply Qmult_le_0_compat; assumption).
  pose proof (Qmult_le_0_compat _ _ Hval Hg) as Hgain.
  lra.
Qed.

Lemma equity_builds_up_witness :
  exists res : ScenarioResult,
    project default_inputs = Some res /\
    length (equity_column (Data res)) = 11%nat /\
    nth_error (equity_column (Data res)) 0 = Some (750000 - 600000) /\
    forall (k : nat) (e e' : Q),
      nth_error (equity_column (Data res)) k = Some e ->
      nth_error (equity_column (Data res)) (S k) = Some e' ->
      e <= e'.
Proof.
  apply (equity_builds_up default_inputs 750000 600000 0.06 0.05);
    [cbn; lia | lra | lra | lra | lra].
Defined.

(** ** The matrix and the headline figure *)

(** The cells of a sweep, one call of the engine each. *)
Lemma sweep_some (g : ScenarioParameters) (interest_axis growth_axis : list Q) :
  (0 <= holding_period g)%Z ->
  exists matrix : list (list (option Q)),
    sweep g interest_axis growth_axis = Some matrix /\
    forall (i j : nat) (ir cg : Q),
      nth_error interest_axis i = Some ir ->
      nth_error growth_axis j = Some cg ->
      exists (row : list (option Q)) (res : ScenarioResult),
        nth_error matrix i = Some row /\
        calculate_scenario g (purchase_price g) (loan_amount g) ir cg = Some res /\
        nth_error row j = Some (IRR_Post_Tax res).
Proof.
  intros Hh.
  set (cell := fun ir cg =>
                 res <- calculate_scenario g (purchase_price g) (loan_amount g) ir cg ;;
                 Some (IRR_Post_Tax res)).
  assert (Hcell : forall ir cg, exists res,
             calculate_scenario g (purchase_price g) (loan_amount g) ir cg = Some res /\
             cell ir cg = Some (IRR_Post_Tax res)).
  { intros ir cg.
    destruct (scenario_some g (purchase_price g) (loan_amount g) ir cg Hh)
      as (_ & res & _ & E & _).
    exists res. unfold cell. rewrite E. split; reflexivity. }
  destruct (mapM_some (fun ir => mapM (cell ir) growth_axis) interest_axis)
    as (matrix & Hm & _ & Hnth).
  { intros ir _.
    destruct (mapM_some (cell ir) growth_axis) as (row & Hr & _).
    - intros cg _. destruct (Hcell ir cg) as (res & _ & Hc). eexists. exact Hc.
    - exists row. exact Hr. }
  exists matrix. split; [exact Hm|].
  intros i j ir cg Hi Hj.
  destruct (Hnth i ir Hi) as (row & Hrow & Hrow_eq).
  destruct (mapM_some (cell ir) growth_axis) as (row' & Hr' & _ & Hcells).
  { intros cg' _. destruct (Hcell ir cg') as (res & _ & Hc). eexists. exact Hc. }
  rewrite Hr' in Hrow_eq. injection Hrow_eq as <-.
  destruct (Hcells j cg Hj) as (c & Hc & Hcell_eq).
  destruct (Hcell ir cg) as (res & Hres & Hcres).
  rewrite Hcres in Hcell_eq. injection Hcell_eq as <-.
  exists row', res. repeat split; assumption.
Qed.

(** When the interest rate and the capital growth rate of the inputs
    are among the rates of the two axes, the cell of the sensitivity
    matrix at their positions is the headline post-tax IRR of the
    scenario itself. *)
Theorem matrix_contains_headline (g : ScenarioParameters) (i j : nat) :
  (0 <= holding_period g)%Z ->
  nth_error interest_ranges i = Some (interest_rate g) ->
  nth_error growth_ranges j = Some (capital_growth g) ->
  exists (matrix : list (list (option Q))) (row : list (option Q))
         (res : ScenarioResult),
    matrix_data g = Some matrix /\
    project g = Some res /\
    nth_error matrix i = Some row /\
    nth_error row j = Some (IRR_Post_Tax res).
Proof.
  intros Hh Hi Hj.
  destruct (sweep_some g interest_ranges growth_ranges Hh) as (matrix & Hm & Hcells).
  destruct (Hcells i j _ _ Hi Hj) as (row & res & Hrow & Hres & Hcell).
  exists matrix, row, res. repeat split; assumption.
Qed.

Lemma matrix_contains_headline_witness :
  exists (matrix : list (list (option Q))) (row : list (option Q))
         (res : ScenarioResult),
    matrix_data default_inputs = Some matrix /\
    project default_inputs = Some res /\
    nth_error matrix 2 = Some row /\
    nth_error row 2 = Some (IRR_Post_Tax res).
Proof.
  apply (matrix_contains_headline default_inputs 2 2).
  - cbn. lia.
  - reflexivity.
  - reflexivity.
Defined.

(** ** The weekly cash flow of year 1 *)

(** The weekly cash-flow figure of the first year is available exactly
    when the holding period is at least one year (with a holding period
    of 0 the ledger has no second row).  It is a 52nd of the first year's
    post-tax cash flow: the base rent net of vacancy, less operating
    expenses, land tax and interest, after tax at the marginal rate, less
    the principal paid, plus the tax saved on the 6000 of depreciation. *)
Theorem weekly_cash_flow_year1 (g : ScenarioParameters) (p_price l_amount i_rate cap_growth : Q) :
  (0 <= holding_period g)%Z ->
  exists res : ScenarioResult,
    calculate_scenario g p_price l_amount i_rate cap_growth = Some res /\
    (weekly_cash_flow res = None <-> holding_period g = 0%Z) /\
    ((1 <= holding_period g)%Z ->
     exists (row1 : YearRecord) (w : Q),
       nth_error (Data res) 1 = Some row1 /\
       weekly_cash_flow res = Some w /\
       w == ((weekly_rent g * 52 * (1 - vacancy_rate g)
              - (annual_opex g + land_tax g) - Interest row1)
             * (1 - marginal_tax_rate g)
             - Principal row1 + 6000 * marginal_tax_rate g) / 52).
Proof.
  intros Hh.
  destruct (scenario_some g p_price l_amount i_rate cap_growth Hh)
    as (_ & res & _ & E & _ & D & _).
  exists res. split; [exact E|].
  unfold weekly_cash_flow. rewrite D.
  destruct (Z.eq_dec (holding_period g) 0) as [H0|Hpos].
  - split; [|lia]. split; [intros _; exact H0|]. intros _.
    rewrite H0. reflexivity.
  - rewrite data_run_nth by lia. cbn [bind].
    split; [split; [discriminate | contradiction]|].
    intros _. eexists. eexists. split; [reflexivity|]. split; [reflexivity|].
    rewrite (year_row_pos g p_price l_amount i_rate cap_growth _ (Z.of_nat 1))
      by discriminate.
    cbn.
    set (ip := fst _). set (pp := snd _).
    field.
Qed.

Lemma weekly_cash_flow_year1_witness :
  exists (res : ScenarioResult) (row1 : YearRecord) (w : Q),
    project default_inputs = Some res /\
    nth_error (Data res) 1 = Some row1 /\
    weekly_cash_flow res = Some w /\
    w == ((600 * 52 * (1 - 0.03) - (6000 + 0) - Interest row1) * (1 - 0.37)
          - Principal row1 + 6000 * 0.37) / 52.
Proof.
  destruct (weekly_cash_flow_year1 default_inputs 750000 600000 0.06 0.05)
    as (res & E & _ & Hw); [cbn; lia|].
  destruct Hw as (row1 & w & H); [cbn; lia|].
  exists res, row1, w. split; [exact E | exact H].
Defined.

(** ** C9: amortizing at a zero interest rate *)

Section ZeroRate.

Variable g : ScenarioParameters.
Variables p_price l_amount i_rate cap_growth : Q.
Hypothesis zero_rate : i_rate == 0.

Local Abbreviation runN := (run g p_price l_amount i_rate cap_growth).
Local Abbreviation rowY := (year_row g p_price l_amount i_rate cap_growth).

(** At a zero rate no interest is charged in any phase of the loan. *)
Lemma interest_zero_rate (loan : Q) (year : Z) :
  fst (loan_calcs g i_rate loan year) == 0.
Proof.
  unfold loan_calcs.
  destruct (year <=? interest_only_period g)%Z; cbn [fst]; [rewrite zero_rate; ring|].
  destruct (loan_term g - (year - 1) >? 0)%Z; cbn [fst];
    [rewrite zero_rate; ring | reflexivity].
Qed.

(** The principal of an amortizing year at a zero rate. *)
Lemma principal_zero_rate (loan : Q) (year : Z) :
  (interest_only_period g < year)%Z ->
  (0 < loan_term g - (year - 1))%Z ->
  snd (loan_calcs g i_rate loan year)
  == loan / inject_Z (loan_term g - (year - 1)).
Proof.
  intros Hio Ht. rewrite loan_calcs_amortizing by assumption. cbn [snd].
  rewrite (payment_zero_rate i_rate _ Ht loan zero_rate), zero_rate. ring.
Qed.

(** At a zero rate a loan that is not negative is repaid in equal
    parts over the years between the interest-only period and the end
    of the term: the balance falls on a straight line. *)
Lemma zero_rate_balance (k : nat) :
  0 <= l_amount ->
  (0 <= interest_only_period g < loan_term g)%Z ->
  (interest_only_period g <= Z.of_nat k <= loan_term g)%Z ->
  Loan (rowY (runN k) (Z.of_nat k))
  == l_amount * inject_Z (loan_term g - Z.of_nat k)
     / inject_Z (loan_term g - interest_only_period g).
Proof.
  intros Hl Hio.
  pose proof (inject_Z_nper_pos (loan_term g - interest_only_period g) ltac:(lia)) as HD.
  set (D := inject_Z (loan_term g - interest_only_period g)) in *.
  induction k as [|k IH]; intros Hk.
  - replace (loan_term g - Z.of_nat 0)%Z
      with (loan_term g - interest_only_period g)%Z by lia.
    fold D. cbn [Loan year_row Z.of_nat Z.eqb]. field. lra.
  - destruct (Z.eq_dec (Z.of_nat (S k)) (interest_only_period g)) as [Heq|Hne].
    + rewrite loan_interest_only_years by (assumption || lia).
      rewrite Heq. fold D. field. lra.
    + destruct (loan_columns g p_price l_amount i_rate cap_growth k) as (_ & Hp & Hloan).
      set (prev := Loan (rowY (runN k) (Z.of_nat k))) in *.
      assert (Hprev_eq : prev == l_amount * inject_Z (loan_term g - Z.of_nat k) / D)
        by (apply IH; lia).
      pose proof (inject_Z_nper_pos (loan_term g - Z.of_nat k) ltac:(lia)) as HN.
      pose proof (inject_Z_pred (loan_term g - Z.of_nat k)) as HN1.
      replace (loan_term g - Z.of_nat k - 1)%Z
        with (loan_term g - Z.of_nat (S k))%Z in HN1 by lia.
      assert (Hprev : 0 <= prev).
      { rewrite Hprev_eq. apply Qle_shift_div_l; [exact HD|].
        rewrite Qmult_0_l. apply Qmult_le_0_compat; lra. }
      assert (Hr : 0 <= i_rate) by (rewrite zero_rate; lra).
      pose proof (principal_payment_bounds g i_rate prev (Z.of_nat (S k)) Hr Hprev) as Hb.
      pose proof (principal_zero_rate prev (Z.of_nat (S k)) ltac:(lia) ltac:(lia)) as Hpz.
      replace (loan_term g - (Z.of_nat (S k) - 1))%Z
        with (loan_term g - Z.of_nat k)%Z in Hpz by lia.
      rewrite <- Hp in Hb, Hpz.
      rewrite Hloan. rewrite clamp_nonneg by lra.
      rewrite Hpz, Hprev_eq.
      set (N := inject_Z (loan_term g - Z.of_nat k)) in *.
      set (N' := inject_Z (loan_term g - Z.of_nat (S k))) in *.
      setoid_replace N with (N' + 1) by exact HN1.
      field. split; lra.
Qed.

End ZeroRate.

(** C9.  For every in-domain parameter set with an interest rate of 0:
    the year-0 record shows the loan amount, and every later year starts
    from the balance recorded the year before, pays no interest and
    records that balance less the principal paid (not below 0).  In
    every amortizing year (after the interest-only period, with a
    positive remaining term) the payment computed is that balance
    divided by the remaining term, and the principal paid is the
    payment; in every other year no principal is paid.  For a loan
    that is not negative and an interest-only period between 0 and the
    term, the balance therefore falls on a straight line and the
    principal is loan amount / (loan term - interest-only period) in
    every amortizing year. *)
Theorem zero_rate_payment (g : ScenarioParameters) :
  in_domain g ->
  interest_rate g == 0 ->
  exists res : ScenarioResult,
    project g = Some res /\
    (exists r0 : YearRecord,
        nth_error (Data res) 0 = Some r0 /\ Loan r0 = loan_amount g) /\
    (forall k : nat,
        (1 <= k <= Z.to_nat (holding_period g))%nat ->
        exists prev row : YearRecord,
          nth_error (Data res) (k - 1) = Some prev /\
          nth_error (Data res) k = Some row /\
          current_loan (run g (purchase_price g) (loan_amount g) (interest_rate g)
                            (capital_growth g) k) = Loan prev /\
          Interest row == 0 /\
          Loan row = (if Qltb (Loan prev - Principal row) 0 then 0
                      else Loan prev - Principal row) /\
          ((interest_only_period g < Z.of_nat k)%Z ->
           (0 < loan_term g - (Z.of_nat k - 1))%Z ->
           payment (interest_rate g) (loan_term g - (Z.of_nat k - 1)) (Loan prev)
             == Loan prev / inject_Z (loan_term g - (Z.of_nat k - 1)) /\
           Principal row
             == payment (interest_rate g) (loan_term g - (Z.of_nat k - 1)) (Loan prev)
                - Interest row /\
           Principal row == Loan prev / inject_Z (loan_term g - (Z.of_nat k - 1))) /\
          ((Z.of_nat k <= interest_only_period g)%Z
           \/ (loan_term g - (Z.of_nat k - 1) <= 0)%Z ->
           Principal row == 0)) /\
    (0 <= loan_amount g ->
     (0 <= interest_only_period g < loan_term g)%Z ->
     forall k : nat,
       (1 <= k <= Z.to_nat (holding_period g))%nat ->
       (interest_only_period g < Z.of_nat k <= loan_term g)%Z ->
       exists row : YearRecord,
         nth_error (Data res) k = Some row /\
         Principal row
           == loan_amount g / inject_Z (loan_term g - interest_only_period g) /\
         Loan row
           == loan_amount g * inject_Z (loan_term g - Z.of_nat k)
              / inject_Z (loan_term g - interest_only_period g)).
Proof.
  intros (_ & _ & _ & _ & _ & _ & Hh) Hz.
  destruct (project_rows g) as (res & E & _ & _ & Hrow); [lia|].
  exists res. split; [exact E|]. split; [|split].
  - eexists. split; [apply Hrow; lia | reflexivity].
  - intros k Hk. eexists. eexists.
    split; [apply Hrow; lia|]. split; [apply Hrow; lia|].
    destruct k as [|k]; [lia|]. replace (S k - 1)%nat with k by lia.
    destruct (loan_columns g (purchase_price g) (loan_amount g) (interest_rate g)
                (capital_growth g) k) as (Hi & Hp & Hloan).
    split; [apply loan_prev|].
    split; [rewrite Hi; apply interest_zero_rate; exact Hz|].
    split; [exact Hloan|].
    split.
    + intros Hio Hterm.
      set (prev := Loan (year_row g (purchase_price g) (loan_amount g)
                           (interest_rate g) (capital_growth g)
                           (run g (purchase_price g) (loan_amount g)
                                (interest_rate g) (capital_growth g) k)
                           (Z.of_nat k))) in *.
      pose proof (payment_zero_rate (interest_rate g) _ Hterm prev Hz) as Hpay.
      split; [exact Hpay|].
      rewrite Hi, Hp, loan_calcs_amortizing by assumption. cbn [fst snd].
      split; [reflexivity|]. rewrite Hpay, Hz. ring.
    + intros Hnot. rewrite Hp. unfold loan_calcs.
      destruct (Z.leb_spec (Z.of_nat (S k)) (interest_only_period g)); [reflexivity|].
      destruct (Z.gtb_spec (loan_term g - (Z.of_nat (S k) - 1)) 0);
        [lia | reflexivity].
  - intros Hl Hio k Hk Hamort. eexists. split; [apply Hrow; lia|].
    split.
    + destruct k as [|k]; [lia|].
      destruct (loan_columns g (purchase_price g) (loan_amount g) (interest_rate g)
                  (capital_growth g) k) as (_ & Hp & _).
      rewrite Hp, principal_zero_rate by (assumption || lia).
      rewrite zero_rate_balance by (assumption || lia).
      replace (loan_term g - (Z.of_nat (S k) - 1))%Z
        with (loan_term g - Z.of_nat k)%Z by lia.
      pose proof (inject_Z_nper_pos (loan_term g - Z.of_nat k) ltac:(lia)) as HN.
      pose proof (inject_Z_nper_pos (loan_term g - interest_only_period g)
                    ltac:(lia)) as HD.
      field. split; lra.
    + apply zero_rate_balance; (assumption || lia).
Qed.

Lemma zero_rate_payment_witness :
  exists (res : ScenarioResult) (r0 row1 : YearRecord),
    project zero_rate_inputs = Some res /\
    nth_error (Data res) 0 = Some r0 /\
    nth_error (Data res) 1 = Some row1 /\
    Loan r0 = 600000 /\
    payment 0 30 (Loan r0) == Loan r0 / 30 /\
    Interest row1 == 0 /\
    Principal row1 == 20000 /\
    Loan row1 == 580000.
Proof.
  destruct (zero_rate_payment zero_rate_inputs) as (res & E & H0 & Hyear & Hline).
  - unfold in_domain; cbn. repeat split; try lra; lia.
  - reflexivity.
  - destruct H0 as (r0 & Hr0 & HL0).
    destruct (Hyear 1%nat) as (prev & row1 & Hprev & Hrow1 & _ & Hint & _ & Ham & _);
      [cbn; lia|].
    cbn [Nat.sub] in Hprev.
    assert (Heq : prev = r0) by congruence. subst prev.
    destruct Ham as (Hpay & _ & _); [cbn; lia | cbn; lia |].
    destruct (Hline ltac:(cbn; lra) ltac:(cbn; lia) 1%nat)
      as (row1' & Hrow1' & Hprin & Hloan); [cbn; lia | cbn; lia |].
    assert (Heq : row1' = row1) by congruence. subst row1'.
    exists res, r0, row1.
    split; [exact E|]. split; [exact Hr0|]. split; [exact Hrow1|].
    split; [exact HL0|]. split; [exact Hpay|]. split; [exact Hint|].
    split; [rewrite Hprin | rewrite Hloan]; reflexivity.
Defined.
